(** * csi-s3 controller server: volume identity codec and lifecycle handlers

    Shallow embedding of [pkg/driver/controllerserver.go].  Go strings are
    byte sequences, modelled by [string] (a list of 8-bit [ascii]); [len] is
    [String.length].  [int64] capacities are [Z] (the handlers only compare
    and copy them).  Go maps are [gmap string string]. *)

From Stdlib Require Import ZArith Ascii String List Lia Bool.
From stdpp Require Import base option list gmap strings.

Local Open Scope Z_scope.

(** ** Go standard library functions used by the driver *)

Module GoLib.

(** *** [strings.ToLower] *)

(** [utf8.RuneSelf = 0x80]: bytes below it are single-byte runes. *)
Definition isASCII (c : ascii) : bool := (nat_of_ascii c <? 128)%nat.

Definition isUpper (c : ascii) : bool :=
  ((65 <=? nat_of_ascii c) && (nat_of_ascii c <=? 90))%nat.

(** [c += 'a' - 'A'] on an upper-case ASCII letter. *)
Definition lowerByte (c : ascii) : ascii :=
  if isUpper c then ascii_of_nat (nat_of_ascii c + 32) else c.

Fixpoint allASCII (s : string) : bool :=
  match s with
  | EmptyString => true
  | String c r => isASCII c && allASCII r
  end.

Fixpoint mapBytes (f : ascii -> ascii) (s : string) : string :=
  match s with
  | EmptyString => EmptyString
  | String c r => String (f c) (mapBytes f r)
  end.

(** [strings.ToLower]: an ASCII-only string is lower-cased byte by byte;
    any other string goes through [strings.Map(unicode.ToLower, s)], whose
    tables are not part of the driver and are taken as [unicodeLower]. *)
Definition ToLower (unicodeLower : string -> string) (s : string) : string :=
  if allASCII s then mapBytes lowerByte s else unicodeLower s.

(** *** [crypto/sha1] *)

Definition w32 (x : Z) : Z := x mod 2 ^ 32.

Definition rotl (n x : Z) : Z :=
  w32 (Z.lor (Z.shiftl x n) (Z.shiftr x (32 - n))).

Definition bytesOf (s : string) : list Z :=
  map (fun c => Z.of_nat (nat_of_ascii c)) (list_ascii_of_string s).

(** Big-endian bytes of a word, most significant first. *)
Definition be32 (w : Z) : list Z :=
  [Z.shiftr w 24 mod 256; Z.shiftr w 16 mod 256; Z.shiftr w 8 mod 256; w mod 256].

Definition be64 (w : Z) : list Z :=
  be32 (Z.shiftr w 32) ++ be32 w.

(** Message padding: a 1 bit, zeros up to 56 mod 64, the bit length. *)
Definition sha1Pad (msg : list Z) : list Z :=
  let n := length msg in
  msg ++ [128] ++ repeat 0 ((119 - n mod 64) mod 64)%nat ++ be64 (8 * Z.of_nat n).

Fixpoint chunks (fuel : nat) (k : nat) (l : list Z) : list (list Z) :=
  match fuel with
  | O => []
  | S fuel' =>
      match l with
      | [] => []
      | _ => firstn k l :: chunks fuel' k (skipn k l)
      end
  end.

Definition wordOf (bs : list Z) : Z :=
  fold_left (fun acc b => acc * 256 + b) bs 0.

Definition blockWords (blk : list Z) : list Z :=
  map wordOf (chunks 16 4 blk).

(** Message schedule: [w[t] = rotl 1 (w[t-3] ^ w[t-8] ^ w[t-14] ^ w[t-16])]. *)
Fixpoint schedule (n : nat) (w : list Z) : list Z :=
  match n with
  | O => w
  | S n' =>
      let t := length w in
      let x i := nth (t - i) w 0 in
      schedule n' (w ++ [rotl 1 (Z.lxor (Z.lxor (x 3%nat) (x 8%nat))
                                        (Z.lxor (x 14%nat) (x 16%nat)))])
  end.

Record sha1State := mkSha1 { hA : Z; hB : Z; hC : Z; hD : Z; hE : Z }.

Definition sha1Init : sha1State :=
  mkSha1 0x67452301 0xEFCDAB89 0x98BADCFE 0x10325476 0xC3D2E1F0.

Definition sha1Round (t : nat) (wt : Z) (s : sha1State) : sha1State :=
  let '(mkSha1 a b c d e) := s in
  let '(f, k) :=
    if (t <? 20)%nat then
      (Z.lor (Z.land b c) (Z.land (Z.lxor b 0xFFFFFFFF) d), 0x5A827999)
    else if (t <? 40)%nat then
      (Z.lxor (Z.lxor b c) d, 0x6ED9EBA1)
    else if (t <? 60)%nat then
      (Z.lor (Z.lor (Z.land b c) (Z.land b d)) (Z.land c d), 0x8F1BBCDC)
    else
      (Z.lxor (Z.lxor b c) d, 0xCA62C1D6) in
  mkSha1 (w32 (rotl 5 a + f + e + k + wt)) a (rotl 30 b) c d.

Fixpoint sha1Rounds (t : nat) (ws : list Z) (s : sha1State) : sha1State :=
  match ws with
  | [] => s
  | wt :: ws' => sha1Rounds (S t) ws' (sha1Round t wt s)
  end.

Definition sha1Block (s : sha1State) (blk : list Z) : sha1State :=
  let r := sha1Rounds 0 (schedule 64 (blockWords blk)) s in
  mkSha1 (w32 (hA s + hA r)) (w32 (hB s + hB r)) (w32 (hC s + hC r))
         (w32 (hD s + hD r)) (w32 (hE s + hE r)).

(** [h := sha1.New(); io.WriteString(h, s); h.Sum(nil)]: the 20-byte digest. *)
Definition sha1Sum (s : string) : list Z :=
  let padded := sha1Pad (bytesOf s) in
  let final := fold_left sha1Block (chunks (length padded) 64 padded) sha1Init in
  be32 (hA final) ++ be32 (hB final) ++ be32 (hC final)
       ++ be32 (hD final) ++ be32 (hE final).

(** *** [encoding/hex] *)

Definition hextable : string := "0123456789abcdef".

Definition hexDigit (v : Z) : ascii :=
  match String.get (Z.to_nat v) hextable with
  | Some c => c
  | None => "0"%char
  end.

(** [hex.EncodeToString]: two digits per byte, [hextable[v>>4]] then
    [hextable[v&0x0f]]. *)
Fixpoint EncodeToString (bs : list Z) : string :=
  match bs with
  | [] => EmptyString
  | v :: r => String (hexDigit (Z.shiftr v 4))
                (String (hexDigit (Z.land v 15)) (EncodeToString r))
  end.

(** *** [strings.Split] with a one-byte separator *)

(** [Split s sep] cuts [s] at every occurrence of [sep]; a string without
    the separator yields the one-element slice [[s]] (also for [s = ""]). *)
Fixpoint Split (s : string) (sep : ascii) : list string :=
  match s with
  | EmptyString => [EmptyString]
  | String c r =>
      if Ascii.eqb c sep then EmptyString :: Split r sep
      else match Split r sep with
           | h :: t => String c h :: t
           | [] => [String c EmptyString]
           end
  end.

(** *** [path.Clean] and [path.Join] *)

Definition isRooted (p : string) : bool :=
  match p with
  | String "/"%char _ => true
  | _ => false
  end.

(** One step of [path.Clean] on a path element; [out] holds the kept
    elements, innermost first.  [".."] backtracks over a kept real element,
    is dropped at the root, and is kept at the start of a relative path. *)
Definition cleanStep (rooted : bool) (out : list string) (e : string) : list string :=
  if String.eqb e "" || String.eqb e "." then out
  else if String.eqb e ".." then
    match out with
    | top :: rest => if String.eqb top ".." then e :: out else rest
    | [] => if rooted then out else [e]
    end
  else e :: out.

Definition joinSlash (l : list string) : string :=
  match l with
  | [] => EmptyString
  | h :: t => fold_left (fun acc e => acc +:+ "/" +:+ e) t h
  end.

(** [path.Clean]: the shortest equivalent path, ["."] when nothing is left. *)
Definition Clean (p : string) : string :=
  let rooted := isRooted p in
  let kept := rev (fold_left (cleanStep rooted) (Split p "/") []) in
  let body := joinSlash kept in
  if rooted then "/" +:+ body
  else if String.eqb body "" then "." else body.

(** [path.Join]: empty when every element is empty; otherwise the elements
    glued with slashes (leading empty ones skipped) and cleaned. *)
Definition Join (elem : list string) : string :=
  if forallb (fun e => String.eqb e "") elem then EmptyString
  else
    Clean (fold_left (fun buf e =>
                        if String.eqb buf "" then e else buf +:+ "/" +:+ e)
                     elem EmptyString).

End GoLib.

Import GoLib.

(** ** gRPC status errors and Go [error] values *)

Inductive Code :=
| OK | Canceled | Unknown | InvalidArgument | DeadlineExceeded | NotFound
| AlreadyExists | PermissionDenied | ResourceExhausted | FailedPrecondition
| Aborted | OutOfRange | Unimplemented | Internal | Unavailable | DataLoss
| Unauthenticated.

Definition Code_String (c : Code) : string :=
  match c with
  | OK => "OK" | Canceled => "Canceled" | Unknown => "Unknown"
  | InvalidArgument => "InvalidArgument"
  | DeadlineExceeded => "DeadlineExceeded" | NotFound => "NotFound"
  | AlreadyExists => "AlreadyExists" | PermissionDenied => "PermissionDenied"
  | ResourceExhausted => "ResourceExhausted"
  | FailedPrecondition => "FailedPrecondition" | Aborted => "Aborted"
  | OutOfRange => "OutOfRange" | Unimplemented => "Unimplemented"
  | Internal => "Internal" | Unavailable => "Unavailable"
  | DataLoss => "DataLoss" | Unauthenticated => "Unauthenticated"
  end.

(** A Go [error]: [status.Error(code, msg)], a plain error made by
    [fmt.Errorf] (or by a collaborator), or [fmt.Errorf("...%w", err)],
    which keeps the wrapped error. *)
Inductive error :=
| StatusError (c : Code) (msg : string)
| PlainError (msg : string)
| WrapError (msg : string) (cause : error).

(** [err.Error()], which is what [%s] and [%v] print for an error. *)
Definition Error (e : error) : string :=
  match e with
  | StatusError c msg => "rpc error: code = " +:+ Code_String c +:+ " desc = " +:+ msg
  | PlainError msg => msg
  | WrapError msg _ => msg
  end.

(** A Go [(value, error)] return. *)
Inductive result (A : Type) :=
| Ok (a : A)
| Err (e : error).
Arguments Ok {A} a.
Arguments Err {A} e.

(** ** Package [s3]: the object-storage client interface *)

Module s3.

Record FSMeta := mkFSMeta {
  BucketName : string;
  Prefix : string;
  Mounter : string;
  CapacityBytes : Z;
  FSPath : string;
  CreatedByCsi : bool
}.

(** [meta.Mounter = mounter] *)
Definition setMounter (meta : FSMeta) (mounter : string) : FSMeta :=
  mkFSMeta (BucketName meta) (Prefix meta) mounter (CapacityBytes meta)
           (FSPath meta) (CreatedByCsi meta).

(** Methods of [*s3.Client] the controller calls.  The client talks to a
    remote store: every method takes the store's state [S] and returns the
    state afterwards, together with the Go return value.  A method with a
    lone [error] return gives [None] for [nil]. *)
Record Client (S : Type) := mkClient {
  BucketExists : string -> S -> S * result bool;
  GetFSMeta : string -> string -> S -> S * result FSMeta;
  SetFSMeta : FSMeta -> S -> S * option error;
  CreateBucket : string -> S -> S * option error;
  CreatePrefix : string -> string -> S -> S * option error;
  RemovePrefix : string -> string -> S -> S * option error;
  RemoveBucket : string -> S -> S * option error
}.
Arguments BucketExists {S}.
Arguments GetFSMeta {S}.
Arguments SetFSMeta {S}.
Arguments CreateBucket {S}.
Arguments CreatePrefix {S}.
Arguments RemovePrefix {S}.
Arguments RemoveBucket {S}.

(** The requests a handler sends to the store, in the order sent. *)
Inductive Call :=
| CallBucketExists (bucket : string)
| CallGetFSMeta (bucket prefix : string)
| CallSetFSMeta (meta : FSMeta)
| CallCreateBucket (bucket : string)
| CallCreatePrefix (bucket path : string)
| CallRemovePrefix (bucket prefix : string)
| CallRemoveBucket (bucket : string).

(** Requests that change the store. *)
Definition mutating (c : Call) : bool :=
  match c with
  | CallBucketExists _ | CallGetFSMeta _ _ => false
  | _ => true
  end.

Definition removesBucket (bucket : string) (c : Call) : bool :=
  match c with
  | CallRemoveBucket b => String.eqb b bucket
  | _ => false
  end.

End s3.

(** ** Package [csi]: the request and response messages *)

Module csi.

Inductive AccessMode_Mode :=
| UNKNOWN
| SINGLE_NODE_WRITER
| SINGLE_NODE_READER_ONLY
| MULTI_NODE_READER_ONLY
| MULTI_NODE_SINGLE_WRITER
| MULTI_NODE_MULTI_WRITER.

Definition Mode_eqb (a b : AccessMode_Mode) : bool :=
  match a, b with
  | UNKNOWN, UNKNOWN
  | SINGLE_NODE_WRITER, SINGLE_NODE_WRITER
  | SINGLE_NODE_READER_ONLY, SINGLE_NODE_READER_ONLY
  | MULTI_NODE_READER_ONLY, MULTI_NODE_READER_ONLY
  | MULTI_NODE_SINGLE_WRITER, MULTI_NODE_SINGLE_WRITER
  | MULTI_NODE_MULTI_WRITER, MULTI_NODE_MULTI_WRITER => true
  | _, _ => false
  end.

Record AccessMode := mkAccessMode { Mode : AccessMode_Mode }.

(** Only the access mode of a capability is read by the controller. *)
Record VolumeCapability := mkVolumeCapability {
  AccessMode_ : option AccessMode
}.

(** The nil-safe getters generated for the messages. *)
Definition GetAccessMode (c : option VolumeCapability) : option AccessMode :=
  match c with
  | Some c => AccessMode_ c
  | None => None
  end.

Definition GetMode (m : option AccessMode) : AccessMode_Mode :=
  match m with
  | Some m => Mode m
  | None => UNKNOWN
  end.

Record CapacityRange := mkCapacityRange {
  RequiredBytes : Z;
  LimitBytes : Z
}.

Definition GetRequiredBytes (r : option CapacityRange) : Z :=
  match r with
  | Some r => RequiredBytes r
  | None => 0
  end.

(** A slice of capability pointers; [None] is the nil slice, [Some []] an
    empty non-nil one, and a [None] element a nil pointer. *)
Definition Capabilities := option (list (option VolumeCapability)).

Record CreateVolumeRequest := mkCreateVolumeRequest {
  Name : string;
  CapacityRange_ : option CapacityRange;
  VolumeCapabilities : Capabilities;
  Parameters : gmap string string;
  Secrets : gmap string string
}.

Record Volume := mkVolume {
  VolumeId : string;
  CapacityBytes : Z;
  VolumeContext : gmap string string
}.

Record CreateVolumeResponse := mkCreateVolumeResponse {
  Volume_ : option Volume
}.

Record DeleteVolumeRequest := mkDeleteVolumeRequest {
  DVolumeId : string;
  DSecrets : gmap string string
}.

Record DeleteVolumeResponse := mkDeleteVolumeResponse { }.

Record ValidateVolumeCapabilitiesRequest := mkValidateRequest {
  VVolumeId : string;
  VVolumeCapabilities : Capabilities;
  VSecrets : gmap string string
}.

Record Confirmed := mkConfirmed {
  ConfirmedCapabilities : list VolumeCapability
}.

Record ValidateVolumeCapabilitiesResponse := mkValidateResponse {
  Confirmed_ : option Confirmed;
  Message : string
}.

Record ControllerExpandVolumeRequest := mkExpandRequest {
  EVolumeId : string;
  ECapacityRange : option CapacityRange;
  ESecrets : gmap string string
}.

Record ControllerExpandVolumeResponse := mkExpandResponse {
  ECapacityBytes : Z;
  NodeExpansionRequired : bool
}.

Inductive ControllerServiceCapability_RPC_Type :=
| RPC_UNKNOWN
| RPC_CREATE_DELETE_VOLUME
| RPC_PUBLISH_UNPUBLISH_VOLUME
| RPC_LIST_VOLUMES
| RPC_GET_CAPACITY
| RPC_CREATE_DELETE_SNAPSHOT
| RPC_LIST_SNAPSHOTS
| RPC_CLONE_VOLUME
| RPC_PUBLISH_READONLY
| RPC_EXPAND_VOLUME.

End csi.

(** ** Package [driver] *)

(** What the driver imports from packages that are not in
    [controllerserver.go]: the parameter keys of package [mounter], the
    client constructor of package [s3], and the Unicode lower-casing behind
    [strings.ToLower]. *)
Record Imports (S : Type) := mkImports {
  BucketKey : string;
  TypeKey : string;
  NewClientFromSecret : gmap string string -> result (s3.Client S);
  unicodeLower : string -> string
}.
Arguments BucketKey {S}.
Arguments TypeKey {S}.
Arguments NewClientFromSecret {S}.
Arguments unicodeLower {S}.

(** [controllerServer] embeds the csi-common default server; the handlers
    use only its driver's [ValidateControllerServiceRequest]. *)
Record controllerServer := mkControllerServer {
  ValidateControllerServiceRequest :
    csi.ControllerServiceCapability_RPC_Type -> option error
}.

Definition defaultFsPath : string := "csi-fs".

(** *** The handler monad: store state, request log, Go errors *)

Record World (S : Type) := mkWorld {
  store : S;
  calls : list s3.Call
}.
Arguments mkWorld {S}.
Arguments store {S}.
Arguments calls {S}.

Definition M (S A : Type) : Type := World S -> World S * result A.

Definition ret {S A} (a : A) : M S A := fun w => (w, Ok a).

Definition fail {S A} (e : error) : M S A := fun w => (w, Err e).

Definition bind {S A B} (m : M S A) (k : A -> M S B) : M S B :=
  fun w =>
    let '(w', r) := m w in
    match r with
    | Ok a => k a w'
    | Err e => (w', Err e)
    end.

Notation "'let*' x ':=' m 'in' k" := (bind m (fun x => k))
  (at level 10, x pattern, m at level 100, k at level 200).

(** Send one request to the store and log it; the Go return value comes
    back as it is, for the caller to test [err != nil]. *)
Definition request {S X} (c : s3.Call) (op : S -> S * X) : M S X :=
  fun w =>
    let '(s', x) := op (store w) in
    (mkWorld s' (calls w ++ [c]), Ok x).

(** [v, err := f(); if err != nil { return nil, wrap(err) }] *)
Definition orReturn {S A} (m : M S (result A)) (wrap : error -> error) : M S A :=
  let* r := m in
  match r with
  | Ok a => ret a
  | Err e => fail (wrap e)
  end.

(** [if err := f(); err != nil { return nil, wrap(err) }] *)
Definition check {S} (m : M S (option error)) (wrap : error -> error) : M S unit :=
  let* r := m in
  match r with
  | None => ret tt
  | Some e => fail (wrap e)
  end.

Definition strlen (s : string) : Z := Z.of_nat (String.length s).

(** *** The identity codec *)

Definition sanitizeVolumeID {S} (imp : Imports S) (volumeID : string) : string :=
  let volumeID := ToLower (unicodeLower imp) volumeID in
  if strlen volumeID >? 63 then
    EncodeToString (sha1Sum volumeID)
  else volumeID.

(** [volumeIDToBucketPrefix] returns the bucket name and prefix based on
    the volumeID. *)
Definition volumeIDToBucketPrefix (volumeID : string) : string * string :=
  let splitVolumeID := Split volumeID "/" in
  if Z.of_nat (length splitVolumeID) >? 1 then
    (nth 0 splitVolumeID EmptyString, nth 1 splitVolumeID EmptyString)
  else (volumeID, EmptyString).

(** *** CreateVolume *)

(** Lines 49-58: the bucket name, the prefix and the volume ID of a
    request; a bucket override turns the derived name into the prefix. *)
Definition createNames {S} (imp : Imports S) (req : csi.CreateVolumeRequest)
  : string * string * string :=
  let params := csi.Parameters req in
  let volumeID := sanitizeVolumeID imp (csi.Name req) in
  let bucketName := volumeID in
  let prefix := EmptyString in
  match params !! BucketKey imp with
  | Some nameOverride => (nameOverride, volumeID, Join [nameOverride; volumeID])
  | None => (bucketName, prefix, volumeID)
  end.

Definition createCapacity (req : csi.CreateVolumeRequest) : Z :=
  csi.GetRequiredBytes (csi.CapacityRange_ req).

(** [params[mounter.TypeKey]]: the empty string for a missing key. *)
Definition createMounter {S} (imp : Imports S) (req : csi.CreateVolumeRequest) : string :=
  default EmptyString (csi.Parameters req !! TypeKey imp).

Definition CreateVolume {S} (imp : Imports S) (cs : controllerServer)
    (req : csi.CreateVolumeRequest) : M S csi.CreateVolumeResponse :=
  let '(bucketName, prefix, volumeID) := createNames imp req in
  let* _ := check (ret (ValidateControllerServiceRequest cs csi.RPC_CREATE_DELETE_VOLUME))
                  (fun err => err) in
  if strlen volumeID =? 0 then
    fail (StatusError InvalidArgument "Name missing in request")
  else
  match csi.VolumeCapabilities req with
  | None => fail (StatusError InvalidArgument "Volume Capabilities missing in request")
  | Some _ =>
  let capacityBytes := createCapacity req in
  let mounter := createMounter imp req in
  let* client := orReturn (ret (NewClientFromSecret imp (csi.Secrets req)))
                   (fun err => PlainError ("failed to initialize S3 client: " +:+ Error err)) in
  let* exists_ := orReturn (request (s3.CallBucketExists bucketName)
                                    (s3.BucketExists client bucketName))
                    (fun err => PlainError ("failed to check if bucket " +:+ volumeID
                                            +:+ " exists: " +:+ Error err)) in
  let* meta :=
    if exists_ : bool then
      let* r := request (s3.CallGetFSMeta bucketName prefix)
                        (s3.GetFSMeta client bucketName prefix) in
      match r with
      | Err _ =>
          ret (s3.mkFSMeta bucketName prefix mounter capacityBytes defaultFsPath false)
      | Ok meta =>
          if capacityBytes >? s3.CapacityBytes meta then
            fail (StatusError AlreadyExists
                    ("Volume with the same name: " +:+ volumeID
                     +:+ " but with smaller size already exist"))
          else
            ret (s3.setMounter meta mounter)
      end
    else
      let* _ := check (request (s3.CallCreateBucket bucketName)
                               (s3.CreateBucket client bucketName))
                  (fun err => PlainError ("failed to create bucket " +:+ bucketName
                                          +:+ ": " +:+ Error err)) in
      let* _ := check (request (s3.CallCreatePrefix bucketName (Join [prefix; defaultFsPath]))
                               (s3.CreatePrefix client bucketName (Join [prefix; defaultFsPath])))
                  (fun err => PlainError ("failed to create prefix "
                                          +:+ Join [prefix; defaultFsPath]
                                          +:+ ": " +:+ Error err)) in
      ret (s3.mkFSMeta bucketName prefix mounter capacityBytes defaultFsPath (negb exists_)) in
  let* _ := check (request (s3.CallSetFSMeta meta) (s3.SetFSMeta client meta))
              (fun err => WrapError ("error setting bucket metadata: " +:+ Error err) err) in
  ret (csi.mkCreateVolumeResponse
         (Some (csi.mkVolume volumeID capacityBytes (csi.Parameters req))))
  end.

(** *** DeleteVolume *)

Definition DeleteVolume {S} (imp : Imports S) (cs : controllerServer)
    (req : csi.DeleteVolumeRequest) : M S csi.DeleteVolumeResponse :=
  let volumeID := csi.DVolumeId req in
  let '(bucketName, prefix) := volumeIDToBucketPrefix volumeID in
  if strlen volumeID =? 0 then
    fail (StatusError InvalidArgument "Volume ID missing in request")
  else
  let* _ := check (ret (ValidateControllerServiceRequest cs csi.RPC_CREATE_DELETE_VOLUME))
                  (fun err => err) in
  let* client := orReturn (ret (NewClientFromSecret imp (csi.DSecrets req)))
                   (fun err => PlainError ("failed to initialize S3 client: " +:+ Error err)) in
  let* exists_ := orReturn (request (s3.CallBucketExists bucketName)
                                    (s3.BucketExists client bucketName))
                    (fun err => err) in
  let* _ :=
    if exists_ : bool then
      let* meta := orReturn (request (s3.CallGetFSMeta bucketName prefix)
                                     (s3.GetFSMeta client bucketName prefix))
                     (fun _ => PlainError ("failed to get metadata of buckect " +:+ volumeID)) in
      let* _ :=
        if negb (String.eqb prefix "") then
          check (request (s3.CallRemovePrefix bucketName prefix)
                         (s3.RemovePrefix client bucketName prefix))
                (fun err => WrapError ("unable to remove prefix: " +:+ Error err) err)
        else ret tt in
      if s3.CreatedByCsi meta then
        check (request (s3.CallRemoveBucket bucketName)
                       (s3.RemoveBucket client bucketName))
              (fun err => err)
      else ret tt
    else ret tt in
  ret csi.mkDeleteVolumeResponse.

(** *** ValidateVolumeCapabilities *)

(** We currently only support RWO. *)
Definition supportedAccessMode : csi.AccessMode :=
  csi.mkAccessMode csi.SINGLE_NODE_WRITER.

(** The loop over the requested capabilities: [Some] is the response of
    the early return, [None] means the loop ran to its end. *)
Fixpoint rejectUnsupported (caps : list (option csi.VolumeCapability))
  : option csi.ValidateVolumeCapabilitiesResponse :=
  match caps with
  | [] => None
  | cap :: rest =>
      if negb (csi.Mode_eqb (csi.GetMode (csi.GetAccessMode cap))
                            (csi.GetMode (Some supportedAccessMode))) then
        Some (csi.mkValidateResponse None "Only single node writer is supported")
      else rejectUnsupported rest
  end.

Definition ValidateVolumeCapabilities {S} (imp : Imports S) (cs : controllerServer)
    (req : csi.ValidateVolumeCapabilitiesRequest)
  : M S csi.ValidateVolumeCapabilitiesResponse :=
  if strlen (csi.VVolumeId req) =? 0 then
    fail (StatusError InvalidArgument "Volume ID missing in request")
  else
  match csi.VVolumeCapabilities req with
  | None => fail (StatusError InvalidArgument "Volume capabilities missing in request")
  | Some caps =>
  let '(bucketName, prefix) := volumeIDToBucketPrefix (csi.VVolumeId req) in
  let* s3c := orReturn (ret (NewClientFromSecret imp (csi.VSecrets req)))
                (fun err => PlainError ("failed to initialize S3 client: " +:+ Error err)) in
  let* exists_ := orReturn (request (s3.CallBucketExists bucketName)
                                    (s3.BucketExists s3c bucketName))
                    (fun err => err) in
  if negb exists_ then
    fail (StatusError NotFound
            ("bucket of volume with id " +:+ csi.VVolumeId req +:+ " does not exist"))
  else
  let* _ := orReturn (request (s3.CallGetFSMeta bucketName prefix)
                              (s3.GetFSMeta s3c bucketName prefix))
              (fun _ => StatusError NotFound
                          ("fsmeta of volume with id " +:+ csi.VVolumeId req
                           +:+ " does not exist")) in
  match rejectUnsupported caps with
  | Some resp => ret resp
  | None =>
      ret (csi.mkValidateResponse
             (Some (csi.mkConfirmed [csi.mkVolumeCapability (Some supportedAccessMode)]))
             EmptyString)
  end
  end.

(** *** ControllerExpandVolume *)

(** The handler returns an empty response together with the error; no
    state is read. *)
Definition ControllerExpandVolume (cs : controllerServer)
    (req : csi.ControllerExpandVolumeRequest)
  : csi.ControllerExpandVolumeResponse * error :=
  (csi.mkExpandResponse 0 false,
   StatusError Unimplemented "ControllerExpandVolume is not implemented").

(** [run m st]: the handler [m] started on store [st] with an empty log;
    the store afterwards, the requests sent, and the Go return value. *)
Definition run {S A} (m : M S A) (st : S) : S * list s3.Call * result A :=
  let '(w, r) := m (mkWorld st []) in
  (store w, calls w, r).

(** ** An in-memory object store *)

Module MemS3.

(** Modelled from the spec: a bucket of the object store of section 6, as
    far as the controller can observe it: one metadata record per prefix
    and the keys of the stored objects.  Package [s3] implements the real
    one outside [controllerserver.go]. *)
Record Bucket := mkBucket {
  metas : gmap string s3.FSMeta;
  objects : list string
}.

Definition emptyBucket : Bucket := mkBucket ∅ [].

Definition noSuchBucket (b : string) : error :=
  PlainError ("The specified bucket does not exist: " +:+ b).

(** Modelled from the spec: [bucketExists(name) -> bool]. *)
Definition BucketExists (b : string) (st : gmap string Bucket)
  : gmap string Bucket * result bool :=
  (st, Ok (match st !! b with Some _ => true | None => false end)).

(** Modelled from the spec: [getMetadata(bucket, prefix) -> VolumeMetadata |
    not-found]. *)
Definition GetFSMeta (b p : string) (st : gmap string Bucket)
  : gmap string Bucket * result s3.FSMeta :=
  match st !! b with
  | None => (st, Err (noSuchBucket b))
  | Some bk =>
      match metas bk !! p with
      | Some m => (st, Ok m)
      | None => (st, Err (PlainError "The specified key does not exist."))
      end
  end.

(** Modelled from the spec: [setMetadata(VolumeMetadata)], which creates or
    overwrites the record of the metadata's own bucket and prefix. *)
Definition SetFSMeta (m : s3.FSMeta) (st : gmap string Bucket)
  : gmap string Bucket * option error :=
  match st !! s3.BucketName m with
  | None => (st, Some (noSuchBucket (s3.BucketName m)))
  | Some bk =>
      (<[s3.BucketName m := mkBucket (<[s3.Prefix m := m]> (metas bk)) (objects bk)]> st,
       None)
  end.

(** Modelled from the spec: [createBucket(name)]. *)
Definition CreateBucket (b : string) (st : gmap string Bucket)
  : gmap string Bucket * option error :=
  match st !! b with
  | Some _ => (st, Some (PlainError ("Your previous request to create the named bucket succeeded: " +:+ b)))
  | None => (<[b := emptyBucket]> st, None)
  end.

(** Modelled from the spec: [createPrefix(bucket, path)]. *)
Definition CreatePrefix (b p : string) (st : gmap string Bucket)
  : gmap string Bucket * option error :=
  match st !! b with
  | None => (st, Some (noSuchBucket b))
  | Some bk => (<[b := mkBucket (metas bk) (objects bk ++ [p +:+ "/"])]> st, None)
  end.

(** Modelled from the spec: [removePrefix(bucket, path)], which removes the
    prefix's objects and its metadata record and keeps the bucket. *)
Definition RemovePrefix (b p : string) (st : gmap string Bucket)
  : gmap string Bucket * option error :=
  match st !! b with
  | None => (st, Some (noSuchBucket b))
  | Some bk =>
      (<[b := mkBucket (delete p (metas bk))
                       (List.filter (fun k => negb (String.prefix p k)) (objects bk))]> st,
       None)
  end.

(** Modelled from the spec: [removeBucket(name)]. *)
Definition RemoveBucket (b : string) (st : gmap string Bucket)
  : gmap string Bucket * option error :=
  match st !! b with
  | None => (st, Some (noSuchBucket b))
  | Some _ => (delete b st, None)
  end.

Definition client : s3.Client (gmap string Bucket) :=
  s3.mkClient _ BucketExists GetFSMeta SetFSMeta CreateBucket CreatePrefix
              RemovePrefix RemoveBucket.

(** The driver linked against the in-memory store, with the parameter
    keys ["bucket"] and ["mounter"]; names are ASCII, so the Unicode
    mapping is never consulted. *)
Definition imports : Imports (gmap string Bucket) :=
  mkImports _ "bucket" "mounter" (fun _ => Ok client) (fun s => s).

(** A controller whose driver advertises every capability. *)
Definition server : controllerServer := mkControllerServer (fun _ => None).

(** Modelled from the spec: the store with failures injected.  A request
    for which [fault] gives an error is answered with that error and
    leaves the store alone; every other request works as before. *)
Definition faulty (fault : s3.Call -> option error)
  : s3.Client (gmap string Bucket) :=
  s3.mkClient _
    (fun b st =>
       match fault (s3.CallBucketExists b) with
       | Some e => (st, Err e)
       | None => BucketExists b st
       end)
    (fun b p st =>
       match fault (s3.CallGetFSMeta b p) with
       | Some e => (st, Err e)
       | None => GetFSMeta b p st
       end)
    (fun m st =>
       match fault (s3.CallSetFSMeta m) with
       | Some e => (st, Some e)
       | None => SetFSMeta m st
       end)
    (fun b st =>
       match fault (s3.CallCreateBucket b) with
       | Some e => (st, Some e)
       | None => CreateBucket b st
       end)
    (fun b p st =>
       match fault (s3.CallCreatePrefix b p) with
       | Some e => (st, Some e)
       | None => CreatePrefix b p st
       end)
    (fun b p st =>
       match fault (s3.CallRemovePrefix b p) with
       | Some e => (st, Some e)
       | None => RemovePrefix b p st
       end)
    (fun b st =>
       match fault (s3.CallRemoveBucket b) with
       | Some e => (st, Some e)
       | None => RemoveBucket b st
       end).

(** The driver linked against a given client constructor. *)
Definition importsWith
    (new : gmap string string -> result (s3.Client (gmap string Bucket)))
  : Imports (gmap string Bucket) :=
  mkImports _ "bucket" "mounter" new (fun s => s).

(** A controller whose driver advertises no capability: every request
    type other than UNKNOWN is refused. *)
Definition bareServer : controllerServer :=
  mkControllerServer
    (fun c =>
       match c with
       | csi.RPC_UNKNOWN => None
       | _ => Some (StatusError InvalidArgument "CREATE_DELETE_VOLUME")
       end).

End MemS3.

(** ** Example stores and requests *)

Module Examples.

(** The metadata CreateVolume writes for ["My-Volume"] at one GiB. *)
Definition ownMeta (createdByCsi : bool) : s3.FSMeta :=
  s3.mkFSMeta "my-volume" "" "s3fs" 1073741824 "csi-fs" createdByCsi.

(** A store holding the bucket of the volume ["my-volume"]. *)
Definition ownStore (createdByCsi : bool) : gmap string MemS3.Bucket :=
  {["my-volume" := MemS3.mkBucket {["" := ownMeta createdByCsi]} ["csi-fs/"]]}.

(** A store whose bucket ["my-volume"] was made by somebody else and holds
    no metadata record. *)
Definition bareStore : gmap string MemS3.Bucket :=
  {["my-volume" := MemS3.mkBucket ∅ ["data.bin"]]}.

(** [ownStore true] after a replay of CreateVolume with the mounter
    ["rclone"]. *)
Definition ownStoreRclone : gmap string MemS3.Bucket :=
  {["my-volume" :=
      MemS3.mkBucket
        {["" := s3.mkFSMeta "my-volume" "" "rclone" 1073741824 "csi-fs" true]}
        ["csi-fs/"]]}.

(** [bareStore] after CreateVolume for one KiB has claimed the bucket. *)
Definition bareStoreClaimed : gmap string MemS3.Bucket :=
  {["my-volume" :=
      MemS3.mkBucket
        {["" := s3.mkFSMeta "my-volume" "" "rclone" 1024 "csi-fs" false]}
        ["data.bin"]]}.

(** The metadata of the volume ["vol"] kept under a prefix of ["bucket"]. *)
Definition sharedMeta (createdByCsi : bool) : s3.FSMeta :=
  s3.mkFSMeta "bucket" "vol" "s3fs" 100 "csi-fs" createdByCsi.

(** A bucket shared by the volumes ["vol"] and ["other"]. *)
Definition sharedStore (createdByCsi : bool) : gmap string MemS3.Bucket :=
  {["bucket" :=
      MemS3.mkBucket
        {["vol" := sharedMeta createdByCsi;
          "other" := s3.mkFSMeta "bucket" "other" "s3fs" 100 "csi-fs" false]}
        ["vol/csi-fs/"; "other/csi-fs/"]]}.

(** The shared bucket once the volume ["vol"] is gone. *)
Definition sharedStoreRest : gmap string MemS3.Bucket :=
  {["bucket" :=
      MemS3.mkBucket
        {["other" := s3.mkFSMeta "bucket" "other" "s3fs" 100 "csi-fs" false]}
        ["other/csi-fs/"]]}.

(** CreateVolume for ["My-Volume"] with the mounter ["rclone"]. *)
Definition createReq (bytes : Z) (caps : csi.Capabilities) : csi.CreateVolumeRequest :=
  csi.mkCreateVolumeRequest "My-Volume" (Some (csi.mkCapacityRange bytes 0)) caps
    {["mounter" := "rclone"]} ∅.

Definition deleteReq (volumeID : string) : csi.DeleteVolumeRequest :=
  csi.mkDeleteVolumeRequest volumeID ∅.

Definition validateReq (volumeID : string) (caps : csi.Capabilities)
  : csi.ValidateVolumeCapabilitiesRequest :=
  csi.mkValidateRequest volumeID caps ∅.

Definition writer : option csi.VolumeCapability :=
  Some (csi.mkVolumeCapability (Some (csi.mkAccessMode csi.SINGLE_NODE_WRITER))).

Definition multiWriter : option csi.VolumeCapability :=
  Some (csi.mkVolumeCapability (Some (csi.mkAccessMode csi.MULTI_NODE_MULTI_WRITER))).

(** CreateVolume for the volume ["Vol"] inside the shared bucket
    ["bucket"]. *)
Definition sharedReq : csi.CreateVolumeRequest :=
  csi.mkCreateVolumeRequest "Vol" (Some (csi.mkCapacityRange 100 0)) (Some [writer])
    {["bucket" := "bucket"; "mounter" := "s3fs"]} ∅.

(** CreateVolume with an empty name, with and without a bucket override. *)
Definition namelessReq (params : gmap string string) : csi.CreateVolumeRequest :=
  csi.mkCreateVolumeRequest "" None (Some [writer]) params ∅.

Definition bucketOnly : gmap string string := {["bucket" := "bucket"]}.

Definition denied : error := PlainError "Access Denied.".

(** Stores that refuse one kind of request. *)
Definition noBucketExists (c : s3.Call) : option error :=
  match c with s3.CallBucketExists _ => Some denied | _ => None end.

Definition noCreateBucket (c : s3.Call) : option error :=
  match c with s3.CallCreateBucket _ => Some denied | _ => None end.

Definition noCreatePrefix (c : s3.Call) : option error :=
  match c with s3.CallCreatePrefix _ _ => Some denied | _ => None end.

Definition noRemovePrefix (c : s3.Call) : option error :=
  match c with s3.CallRemovePrefix _ _ => Some denied | _ => None end.

Definition faultyImports (fault : s3.Call -> option error)
  : Imports (gmap string MemS3.Bucket) :=
  MemS3.importsWith (fun _ => Ok (MemS3.faulty fault)).

(** A driver whose client cannot be made. *)
Definition lockedImports : Imports (gmap string MemS3.Bucket) :=
  MemS3.importsWith (fun _ => Err (PlainError "missing credentials")).

(** The store after CreateVolume made the bucket ["my-volume"] and then
    failed to create the reserved path. *)
Definition halfMadeStore : gmap string MemS3.Bucket :=
  {["my-volume" := MemS3.emptyBucket]}.

(** The store after [createReq 1024] on the empty store. *)
Definition madeStore : gmap string MemS3.Bucket :=
  {["my-volume" :=
      MemS3.mkBucket
        {["" := s3.mkFSMeta "my-volume" "" "rclone" 1024 "csi-fs" true]}
        ["csi-fs/"]]}.

Definition emptyStore : gmap string MemS3.Bucket := ∅.

(** The store between the creation of the reserved path and the metadata
    write. *)
Definition pathMadeStore : gmap string MemS3.Bucket :=
  {["my-volume" := MemS3.mkBucket ∅ ["csi-fs/"]]}.

Definition rcloneParams : gmap string string := {["mounter" := "rclone"]}.

Definition noSecrets : gmap string string := ∅.

Definition noParams : gmap string string := ∅.

(** A name of 68 bytes, more than the 63 a bucket name may have. *)
Definition longName : string :=
  "PVC-0123456789ABCDEF0123456789ABCDEF0123456789ABCDEF0123456789ABCDEF".

End Examples.

(** ** Predicates used to state the properties *)

(** [strings.Contains(s, "/")]. *)
Fixpoint containsSlash (s : string) : bool :=
  match s with
  | EmptyString => false
  | String c r => Ascii.eqb c "/" || containsSlash r
  end.

Definition isHexDigit (c : ascii) : bool :=
  let n := nat_of_ascii c in
  ((48 <=? n) && (n <=? 57) || (97 <=? n) && (n <=? 102))%nat.

Fixpoint allHex (s : string) : bool :=
  match s with
  | EmptyString => true
  | String c r => isHexDigit c && allHex r
  end.

(** The RemovePrefix request of DeleteVolume, sent for a non-empty prefix
    only. *)
Definition prefixCalls (bucketName prefix : string) : list s3.Call :=
  if String.eqb prefix "" then [] else [s3.CallRemovePrefix bucketName prefix].

(** The store answers DeleteVolume's RemovePrefix request (if one is sent)
    without an error, leaving the store [st']. *)
Definition prefixRemoved {S} (client : s3.Client S) (bucketName prefix : string)
    (st st' : S) : Prop :=
  if String.eqb prefix "" then st' = st
  else s3.RemovePrefix client bucketName prefix st = (st', None).

Definition isSingleNodeWriter (cap : option csi.VolumeCapability) : bool :=
  csi.Mode_eqb (csi.GetMode (csi.GetAccessMode cap)) csi.SINGLE_NODE_WRITER.

(** The two responses of ValidateVolumeCapabilities. *)
Definition confirmedResponse : csi.ValidateVolumeCapabilitiesResponse :=
  csi.mkValidateResponse
    (Some (csi.mkConfirmed
             [csi.mkVolumeCapability (Some (csi.mkAccessMode csi.SINGLE_NODE_WRITER))]))
    EmptyString.

Definition unsupportedResponse : csi.ValidateVolumeCapabilitiesResponse :=
  csi.mkValidateResponse None "Only single node writer is supported".

(** The volume descriptor CreateVolume answers with. *)
Definition createResponse (volumeID : string) (req : csi.CreateVolumeRequest)
  : csi.CreateVolumeResponse :=
  csi.mkCreateVolumeResponse
    (Some (csi.mkVolume volumeID (createCapacity req) (csi.Parameters req))).

(** A path element that [path.Clean] keeps as it is: not empty, without a
    slash, and neither ["."] nor [".."]. *)
Definition plainElement (e : string) : bool :=
  negb (containsSlash e) && negb (String.eqb e "")
  && negb (String.eqb e ".") && negb (String.eqb e "..").

(** The requests that take something away from the store. *)
Definition isRemoval (c : s3.Call) : bool :=
  match c with
  | s3.CallRemovePrefix _ _ | s3.CallRemoveBucket _ => true
  | _ => false
  end.

(** The requests CreateVolume may send for the bucket [bucketName] and the
    prefix [prefix]. *)
Definition createCall (bucketName prefix : string) (c : s3.Call) : bool :=
  match c with
  | s3.CallBucketExists b => String.eqb b bucketName
  | s3.CallGetFSMeta b p => String.eqb b bucketName && String.eqb p prefix
  | s3.CallCreateBucket b => String.eqb b bucketName
  | s3.CallCreatePrefix b p =>
      String.eqb b bucketName && String.eqb p (Join [prefix; defaultFsPath])
  | s3.CallSetFSMeta _ => true
  | s3.CallRemovePrefix _ _ | s3.CallRemoveBucket _ => false
  end.

(** The requests DeleteVolume may send for the bucket [bucketName] and the
    prefix [prefix]. *)
Definition deleteCall (bucketName prefix : string) (c : s3.Call) : bool :=
  match c with
  | s3.CallBucketExists b => String.eqb b bucketName
  | s3.CallGetFSMeta b p => String.eqb b bucketName && String.eqb p prefix
  | s3.CallRemovePrefix b p => String.eqb b bucketName && String.eqb p prefix
  | s3.CallRemoveBucket b => String.eqb b bucketName
  | s3.CallSetFSMeta _ | s3.CallCreateBucket _ | s3.CallCreatePrefix _ _ => false
  end.

(** Unfold a handler down to the store requests it sends. *)
Ltac unfold_handler :=
  unfold run, CreateVolume, DeleteVolume, ValidateVolumeCapabilities;
  unfold orReturn, check; unfold bind, request, ret, fail;
  cbn [store calls app].

(** Feed the handler the answer [H] of the store. *)
Ltac answer H := rewrite H; cbn [store calls app negb].

(** Settle a side condition on concrete data by evaluation. *)
Ltac evaluate :=
  first [ reflexivity | discriminate | lia
        | vm_compute; first [ reflexivity | discriminate ] ].

(** ** The identity codec *)

Section Codec.

Lemma strlen_zero (s : string) : (strlen s =? 0) = true <-> s = EmptyString.
Proof.
  unfold strlen. destruct s as [|c r]; simpl.
  - split; reflexivity.
  - split; discriminate.
Qed.

Lemma strlen_nonzero (s : string) : s <> EmptyString -> (strlen s =? 0) = false.
Proof.
  intros Hs. destruct (strlen s =? 0) eqn:E; [|reflexivity].
  apply strlen_zero in E. contradiction.
Qed.

Lemma Split_nonempty (s : string) (sep : ascii) : Split s sep <> [].
Proof.
  induction s as [|c r IH]; simpl; [discriminate|].
  destruct (Ascii.eqb c sep); [discriminate|].
  destruct (Split r sep); discriminate.
Qed.

Lemma Split_no_sep (s : string) : containsSlash s = false -> Split s "/" = [s].
Proof.
  induction s as [|c r IH]; simpl; [reflexivity|].
  intros H. apply orb_false_iff in H as [Hc Hr].
  rewrite Hc, (IH Hr). reflexivity.
Qed.

(** An identifier without a slash decodes to itself and the empty prefix. *)
Lemma volumeIDToBucketPrefix_no_slash (id : string) :
  containsSlash id = false -> volumeIDToBucketPrefix id = (id, EmptyString).
Proof.
  intros H. unfold volumeIDToBucketPrefix. rewrite (Split_no_sep _ H). reflexivity.
Qed.

(** The first element of the split is the text before the first slash, the
    second one the text between the first and the second slash. *)
Lemma Split_app_sep (a r : string) :
  containsSlash a = false -> Split (a +:+ String "/" r) "/" = a :: Split r "/".
Proof.
  induction a as [|c a IH]; simpl; [reflexivity|].
  intros H. apply orb_false_iff in H as [Hc Ha].
  rewrite Hc, (IH Ha). reflexivity.
Qed.

Lemma volumeIDToBucketPrefix_slash (a r : string) :
  containsSlash a = false ->
  volumeIDToBucketPrefix (a +:+ String "/" r) = (a, hd EmptyString (Split r "/")).
Proof.
  intros Ha. unfold volumeIDToBucketPrefix. rewrite (Split_app_sep _ _ Ha).
  pose proof (Split_nonempty r "/") as Hne.
  destruct (Split r "/") as [|h t]; [contradiction|]. simpl length.
  replace (Z.of_nat (S (S (length t))) >? 1) with true
    by (symmetry; apply Z.gtb_lt; lia).
  reflexivity.
Qed.

Lemma EncodeToString_length (bs : list Z) :
  String.length (EncodeToString bs) = (2 * length bs)%nat.
Proof. induction bs as [|v r IH]; simpl; [reflexivity|]. rewrite IH. lia. Qed.

Lemma sha1Sum_length (s : string) : length (sha1Sum s) = 20%nat.
Proof.
  unfold sha1Sum.
  generalize (fold_left sha1Block
                (chunks (length (sha1Pad (bytesOf s))) 64 (sha1Pad (bytesOf s)))
                sha1Init).
  intros final. reflexivity.
Qed.

Lemma hexDigit_isHex (v : Z) : 0 <= v < 16 -> isHexDigit (hexDigit v) = true.
Proof.
  intros Hv.
  assert (Hn : exists n, v = Z.of_nat n /\ (n < 16)%nat)
    by (exists (Z.to_nat v); lia).
  destruct Hn as (n & -> & Hn). unfold hexDigit. rewrite Nat2Z.id.
  do 16 (destruct n as [|n]; [reflexivity|]). lia.
Qed.

Lemma EncodeToString_allHex (bs : list Z) :
  Forall (fun v => 0 <= v < 256) bs -> allHex (EncodeToString bs) = true.
Proof.
  induction 1 as [|v r Hv _ IH]; simpl; [reflexivity|].
  rewrite IH, !hexDigit_isHex; [reflexivity| |].
  - change 15 with (Z.ones 4). rewrite Z.land_ones by lia.
    apply Z.mod_pos_bound. lia.
  - rewrite Z.shiftr_div_pow2 by lia. change (2 ^ 4) with 16.
    split; [apply Z.div_pos; lia|apply Z.div_lt_upper_bound; lia].
Qed.

Lemma be32_bytes (w : Z) : Forall (fun v => 0 <= v < 256) (be32 w).
Proof. unfold be32. repeat constructor; apply Z.mod_pos_bound; lia. Qed.

Lemma sha1Sum_bytes (s : string) : Forall (fun v => 0 <= v < 256) (sha1Sum s).
Proof.
  unfold sha1Sum. cbv zeta. repeat apply Forall_app_2; apply be32_bytes.
Qed.

End Codec.

(** *** Properties of the codec *)

(** C5.  [sanitizeVolumeID] is a function of the lower-cased name alone: when
    the lower-cased name has at most 63 bytes it is returned as it is,
    otherwise the result is the hexadecimal SHA-1 digest of the lower-cased
    name, which always has 40 characters, all of them hexadecimal digits.
    Names with the same lower-casing (in particular the same name, asked
    again) get the same identifier. *)
Theorem sanitizeVolumeID_spec {S} (imp : Imports S) (name : string) :
  let lower := ToLower (unicodeLower imp) name in
  sanitizeVolumeID imp name =
    (if (String.length lower <=? 63)%nat then lower
     else EncodeToString (sha1Sum lower))
  /\ String.length (EncodeToString (sha1Sum lower)) = 40%nat
  /\ allHex (EncodeToString (sha1Sum lower)) = true
  /\ (forall name' : string,
        ToLower (unicodeLower imp) name' = lower ->
        sanitizeVolumeID imp name' = sanitizeVolumeID imp name).
Proof.
  intros lower. split; [|split; [|split]].
  - unfold sanitizeVolumeID, strlen. fold lower.
    destruct (Nat.leb_spec (String.length lower) 63) as [Hle|Hgt];
      destruct (Z.gtb_spec (Z.of_nat (String.length lower)) 63) as [Hz|Hz];
      try reflexivity; lia.
  - rewrite EncodeToString_length, sha1Sum_length. reflexivity.
  - apply EncodeToString_allHex, sha1Sum_bytes.
  - intros name' Hsame. unfold sanitizeVolumeID. fold lower. rewrite Hsame.
    reflexivity.
Qed.

(** C8.  When the identifier derived from a name contains no slash, decoding
    it gives the identifier itself as the bucket and the empty prefix. *)
Theorem decode_of_derived {S} (imp : Imports S) (name : string) :
  containsSlash (sanitizeVolumeID imp name) = false ->
  volumeIDToBucketPrefix (sanitizeVolumeID imp name)
  = (sanitizeVolumeID imp name, EmptyString).
Proof. apply volumeIDToBucketPrefix_no_slash. Qed.

(** C4.  At an identifier with two slashes [volumeIDToBucketPrefix] keeps
    only the text between the first and the second slash as the prefix,
    although CreateVolume builds exactly such identifiers: for the name
    ["pre/fix"] in the shared bucket ["bucket"] it stores the metadata under
    the prefix ["pre/fix"] and answers with the volume ID ["bucket/pre/fix"],
    and a following DeleteVolume of that ID looks under the prefix ["pre"]
    and fails. *)
Theorem volumeIDToBucketPrefix_drops_tail :
  let req := csi.mkCreateVolumeRequest "pre/fix" None (Some [])
               {["bucket" := "bucket"]} ∅ in
  let created := run (CreateVolume MemS3.imports MemS3.server req) ∅ in
  volumeIDToBucketPrefix "bucket/pre/fix" = ("bucket", "pre")
  /\ createNames MemS3.imports req = ("bucket", "pre/fix", "bucket/pre/fix")
  /\ created.2 = Ok (csi.mkCreateVolumeResponse
                       (Some (csi.mkVolume "bucket/pre/fix" 0 {["bucket" := "bucket"]})))
  /\ (run (DeleteVolume MemS3.imports MemS3.server
             (csi.mkDeleteVolumeRequest "bucket/pre/fix" ∅)) created.1.1).2
     = Err (PlainError "failed to get metadata of buckect bucket/pre/fix").
Proof. vm_compute. repeat split. Qed.

(** ** The lifecycle handlers *)

Section Handlers.

Context {S : Type} (imp : Imports S) (cs : controllerServer).

Lemma rejectUnsupported_forallb (caps : list (option csi.VolumeCapability)) :
  rejectUnsupported caps
  = if forallb isSingleNodeWriter caps then None else Some unsupportedResponse.
Proof.
  induction caps as [|cap rest IH]; simpl; [reflexivity|].
  unfold isSingleNodeWriter at 1. simpl.
  destruct (csi.Mode_eqb (csi.GetMode (csi.GetAccessMode cap)) csi.SINGLE_NODE_WRITER);
    simpl; [exact IH|reflexivity].
Qed.

(** C2.  CreateVolume on a bucket that exists and whose metadata is read
    back as [meta].  A request for more than the stored capacity is refused
    with AlreadyExists after the two reads, nothing having been written.
    Otherwise the only write is the metadata record, which is [meta] with
    the Mounter field replaced and every other field as stored, and with
    that write acknowledged the call succeeds. *)
Theorem CreateVolume_existing_volume (req : csi.CreateVolumeRequest)
    (bucketName prefix volumeID : string) (client : s3.Client S)
    (st st1 st2 : S) (meta : s3.FSMeta) :
  createNames imp req = (bucketName, prefix, volumeID) ->
  ValidateControllerServiceRequest cs csi.RPC_CREATE_DELETE_VOLUME = None ->
  volumeID <> EmptyString ->
  csi.VolumeCapabilities req <> None ->
  NewClientFromSecret imp (csi.Secrets req) = Ok client ->
  s3.BucketExists client bucketName st = (st1, Ok true) ->
  s3.GetFSMeta client bucketName prefix st1 = (st2, Ok meta) ->
  let reads := [s3.CallBucketExists bucketName; s3.CallGetFSMeta bucketName prefix] in
  let meta' := s3.setMounter meta (createMounter imp req) in
  (createCapacity req > s3.CapacityBytes meta ->
     run (CreateVolume imp cs req) st
     = (st2, reads,
        Err (StatusError AlreadyExists
               ("Volume with the same name: " +:+ volumeID
                +:+ " but with smaller size already exist")))
     /\ forallb (fun c => negb (s3.mutating c)) reads = true)
  /\ (createCapacity req <= s3.CapacityBytes meta ->
      forall st3 : S,
        s3.SetFSMeta client meta' st2 = (st3, None) ->
        run (CreateVolume imp cs req) st
        = (st3, reads ++ [s3.CallSetFSMeta meta'], Ok (createResponse volumeID req)))
  /\ (s3.BucketName meta' = s3.BucketName meta
      /\ s3.Prefix meta' = s3.Prefix meta
      /\ s3.CapacityBytes meta' = s3.CapacityBytes meta
      /\ s3.FSPath meta' = s3.FSPath meta
      /\ s3.CreatedByCsi meta' = s3.CreatedByCsi meta
      /\ s3.Mounter meta' = createMounter imp req).
Proof.
  intros Hn Hv Hid Hcaps Hcl Hbe Hgm reads meta'.
  assert (Hrun :
    run (CreateVolume imp cs req) st
    = if createCapacity req >? s3.CapacityBytes meta
      then (st2, reads,
            Err (StatusError AlreadyExists
                   ("Volume with the same name: " +:+ volumeID
                    +:+ " but with smaller size already exist")))
      else let '(st3, x) := s3.SetFSMeta client meta' st2 in
           (st3, reads ++ [s3.CallSetFSMeta meta'],
            match x with
            | None => Ok (createResponse volumeID req)
            | Some e => Err (WrapError ("error setting bucket metadata: "
                                        +:+ Error e) e)
            end)).
  { unfold_handler. answer Hn. answer Hv. rewrite (strlen_nonzero _ Hid).
    destruct (csi.VolumeCapabilities req) as [caps|]; [|contradiction].
    answer Hcl. answer Hbe. answer Hgm.
    destruct (createCapacity req >? s3.CapacityBytes meta); [reflexivity|].
    cbn [store calls]. fold meta'.
    destruct (s3.SetFSMeta client meta' st2) as [s' [e|]]; reflexivity. }
  split; [|split].
  - intros Hgt. split; [|reflexivity]. rewrite Hrun.
    destruct (Z.gtb_spec (createCapacity req) (s3.CapacityBytes meta));
      [reflexivity|lia].
  - intros Hle st3 Hset. rewrite Hrun.
    destruct (Z.gtb_spec (createCapacity req) (s3.CapacityBytes meta)); [lia|].
    rewrite Hset. reflexivity.
  - repeat split.
Qed.

(** C6.  CreateVolume on a bucket that exists but whose metadata cannot be
    read does not return the read error: it writes a fresh record made of
    the request's bucket name, prefix, mounter and capacity, the fixed
    FSPath and [CreatedByCsi = false], and then answers like any other
    CreateVolume (success, or the error of that write). *)
Theorem CreateVolume_unreadable_metadata (req : csi.CreateVolumeRequest)
    (bucketName prefix volumeID : string) (client : s3.Client S)
    (st st1 st2 st3 : S) (e : error) (written : option error) :
  createNames imp req = (bucketName, prefix, volumeID) ->
  ValidateControllerServiceRequest cs csi.RPC_CREATE_DELETE_VOLUME = None ->
  volumeID <> EmptyString ->
  csi.VolumeCapabilities req <> None ->
  NewClientFromSecret imp (csi.Secrets req) = Ok client ->
  s3.BucketExists client bucketName st = (st1, Ok true) ->
  s3.GetFSMeta client bucketName prefix st1 = (st2, Err e) ->
  let fresh := s3.mkFSMeta bucketName prefix (createMounter imp req)
                 (createCapacity req) "csi-fs" false in
  s3.SetFSMeta client fresh st2 = (st3, written) ->
  run (CreateVolume imp cs req) st
  = (st3,
     [s3.CallBucketExists bucketName; s3.CallGetFSMeta bucketName prefix;
      s3.CallSetFSMeta fresh],
     match written with
     | None => Ok (createResponse volumeID req)
     | Some err => Err (WrapError ("error setting bucket metadata: " +:+ Error err) err)
     end).
Proof.
  intros Hn Hv Hid Hcaps Hcl Hbe Hgm fresh Hset.
  unfold_handler. answer Hn. answer Hv. rewrite (strlen_nonzero _ Hid).
  destruct (csi.VolumeCapabilities req) as [caps|]; [|contradiction].
  answer Hcl. answer Hbe. answer Hgm.
  change (s3.mkFSMeta bucketName prefix (createMounter imp req)
            (createCapacity req) defaultFsPath false) with fresh.
  answer Hset. destruct written; reflexivity.
Qed.

(** C9.  Whenever CreateVolume succeeds, the volume it answers with carries
    the capacity asked for in this very request
    ([req.GetCapacityRange().GetRequiredBytes()]), whatever capacity the
    stored metadata records. *)
Theorem CreateVolume_echoes_requested_capacity (req : csi.CreateVolumeRequest)
    (st st' : S) (sent : list s3.Call) (resp : csi.CreateVolumeResponse) :
  run (CreateVolume imp cs req) st = (st', sent, Ok resp) ->
  exists vol : csi.Volume,
    csi.Volume_ resp = Some vol
    /\ csi.CapacityBytes vol = csi.GetRequiredBytes (csi.CapacityRange_ req).
Proof.
  unfold run, CreateVolume. unfold orReturn, check. unfold bind, request, ret, fail.
  cbn [store calls app]. intros H.
  repeat case_match; simplify_eq; eexists; split; reflexivity.
Qed.

(** C10.  Both handlers refuse the capability list with InvalidArgument
    exactly when it is nil.  With a nil list (and the earlier checks passed)
    they answer InvalidArgument before any request to the store.  With a
    non-nil list, the empty one included, CreateVolume never answers
    InvalidArgument, nor does ValidateVolumeCapabilities once the store has
    answered the existence check; and ValidateVolumeCapabilities with the
    empty list on an existing bucket with readable metadata answers with the
    confirmation. *)
Theorem capabilities_refused_only_when_nil :
  (forall (req : csi.CreateVolumeRequest) (st : S),
      ValidateControllerServiceRequest cs csi.RPC_CREATE_DELETE_VOLUME = None ->
      (createNames imp req).2 <> EmptyString ->
      csi.VolumeCapabilities req = None ->
      run (CreateVolume imp cs req) st
      = (st, [], Err (StatusError InvalidArgument
                        "Volume Capabilities missing in request")))
  /\ (forall (req : csi.CreateVolumeRequest) (caps : list (option csi.VolumeCapability))
             (st st' : S) (sent : list s3.Call) (msg : string),
         ValidateControllerServiceRequest cs csi.RPC_CREATE_DELETE_VOLUME = None ->
         (createNames imp req).2 <> EmptyString ->
         csi.VolumeCapabilities req = Some caps ->
         run (CreateVolume imp cs req) st
         <> (st', sent, Err (StatusError InvalidArgument msg)))
  /\ (forall (req : csi.ValidateVolumeCapabilitiesRequest) (st : S),
         csi.VVolumeId req <> EmptyString ->
         csi.VVolumeCapabilities req = None ->
         run (ValidateVolumeCapabilities imp cs req) st
         = (st, [], Err (StatusError InvalidArgument
                           "Volume capabilities missing in request")))
  /\ (forall (req : csi.ValidateVolumeCapabilitiesRequest)
             (caps : list (option csi.VolumeCapability)) (client : s3.Client S)
             (st st1 st' : S) (found : bool) (sent : list s3.Call) (msg : string),
         csi.VVolumeId req <> EmptyString ->
         csi.VVolumeCapabilities req = Some caps ->
         NewClientFromSecret imp (csi.VSecrets req) = Ok client ->
         s3.BucketExists client (volumeIDToBucketPrefix (csi.VVolumeId req)).1 st
         = (st1, Ok found) ->
         run (ValidateVolumeCapabilities imp cs req) st
         <> (st', sent, Err (StatusError InvalidArgument msg)))
  /\ (forall (req : csi.ValidateVolumeCapabilitiesRequest)
             (bucketName prefix : string) (client : s3.Client S)
             (st st1 st2 : S) (meta : s3.FSMeta),
         volumeIDToBucketPrefix (csi.VVolumeId req) = (bucketName, prefix) ->
         csi.VVolumeId req <> EmptyString ->
         csi.VVolumeCapabilities req = Some [] ->
         NewClientFromSecret imp (csi.VSecrets req) = Ok client ->
         s3.BucketExists client bucketName st = (st1, Ok true) ->
         s3.GetFSMeta client bucketName prefix st1 = (st2, Ok meta) ->
         run (ValidateVolumeCapabilities imp cs req) st
         = (st2, [s3.CallBucketExists bucketName; s3.CallGetFSMeta bucketName prefix],
            Ok confirmedResponse)).
Proof.
  split; [|split; [|split; [|split]]].
  - intros req st Hv Hid Hcaps.
    destruct (createNames imp req) as [[b p] id] eqn:Hn. simpl in Hid.
    unfold_handler. answer Hn. answer Hv. rewrite (strlen_nonzero _ Hid).
    rewrite Hcaps. reflexivity.
  - intros req caps st st' sent msg Hv Hid Hcaps.
    destruct (createNames imp req) as [[b p] id] eqn:Hn. simpl in Hid.
    unfold_handler. answer Hn. answer Hv. rewrite (strlen_nonzero _ Hid).
    rewrite Hcaps. intros H.
    repeat case_match; simplify_eq.
  - intros req st Hid Hcaps.
    unfold_handler. rewrite (strlen_nonzero _ Hid), Hcaps. reflexivity.
  - intros req caps client st st1 st' found sent msg Hid Hcaps Hcl Hbe.
    destruct (volumeIDToBucketPrefix (csi.VVolumeId req)) as [b p] eqn:Hd.
    simpl in Hbe.
    unfold_handler. rewrite (strlen_nonzero _ Hid), Hcaps. answer Hd.
    answer Hcl. answer Hbe. intros H.
    repeat case_match; simplify_eq.
  - intros req b p client st st1 st2 meta Hd Hid Hcaps Hcl Hbe Hgm.
    unfold_handler. rewrite (strlen_nonzero _ Hid), Hcaps. answer Hd.
    answer Hcl. answer Hbe. answer Hgm. reflexivity.
Qed.

(** C7.  ValidateVolumeCapabilities on a request that passes the argument
    checks.  It answers NotFound when the bucket does not exist and when
    the bucket exists but its metadata cannot be read.  Otherwise it
    answers without an error: with the confirmation that lists the
    single-node-writer access mode and nothing else when every requested
    capability has that mode, and with the unconfirmed response carrying a
    message as soon as one capability has another mode. *)
Theorem ValidateVolumeCapabilities_outcomes
    (req : csi.ValidateVolumeCapabilitiesRequest) (bucketName prefix : string)
    (caps : list (option csi.VolumeCapability)) (client : s3.Client S) (st : S) :
  volumeIDToBucketPrefix (csi.VVolumeId req) = (bucketName, prefix) ->
  csi.VVolumeId req <> EmptyString ->
  csi.VVolumeCapabilities req = Some caps ->
  NewClientFromSecret imp (csi.VSecrets req) = Ok client ->
  let reads := [s3.CallBucketExists bucketName; s3.CallGetFSMeta bucketName prefix] in
  (forall st1 : S,
      s3.BucketExists client bucketName st = (st1, Ok false) ->
      run (ValidateVolumeCapabilities imp cs req) st
      = (st1, [s3.CallBucketExists bucketName],
         Err (StatusError NotFound
                ("bucket of volume with id " +:+ csi.VVolumeId req
                 +:+ " does not exist"))))
  /\ (forall (st1 st2 : S) (e : error),
         s3.BucketExists client bucketName st = (st1, Ok true) ->
         s3.GetFSMeta client bucketName prefix st1 = (st2, Err e) ->
         run (ValidateVolumeCapabilities imp cs req) st
         = (st2, reads,
            Err (StatusError NotFound
                   ("fsmeta of volume with id " +:+ csi.VVolumeId req
                    +:+ " does not exist"))))
  /\ (forall (st1 st2 : S) (meta : s3.FSMeta),
         s3.BucketExists client bucketName st = (st1, Ok true) ->
         s3.GetFSMeta client bucketName prefix st1 = (st2, Ok meta) ->
         run (ValidateVolumeCapabilities imp cs req) st
         = (st2, reads,
            Ok (if forallb isSingleNodeWriter caps
                then csi.mkValidateResponse
                       (Some (csi.mkConfirmed
                                [csi.mkVolumeCapability
                                   (Some (csi.mkAccessMode csi.SINGLE_NODE_WRITER))]))
                       EmptyString
                else csi.mkValidateResponse None
                       "Only single node writer is supported"))).
Proof.
  intros Hd Hid Hcaps Hcl reads. split; [|split].
  - intros st1 Hbe. unfold_handler.
    rewrite (strlen_nonzero _ Hid), Hcaps. answer Hd. answer Hcl. answer Hbe.
    reflexivity.
  - intros st1 st2 e Hbe Hgm. unfold_handler.
    rewrite (strlen_nonzero _ Hid), Hcaps. answer Hd. answer Hcl. answer Hbe.
    answer Hgm. reflexivity.
  - intros st1 st2 meta Hbe Hgm. unfold_handler.
    rewrite (strlen_nonzero _ Hid), Hcaps. answer Hd. answer Hcl. answer Hbe.
    answer Hgm. rewrite rejectUnsupported_forallb.
    destruct (forallb isSingleNodeWriter caps); reflexivity.
Qed.

(** DeleteVolume on an existing bucket with readable metadata, in full:
    the prefix (if any) is removed first, and only then, and only for
    [CreatedByCsi], the bucket. *)
Lemma DeleteVolume_existing_run (req : csi.DeleteVolumeRequest)
    (bucketName prefix : string) (client : s3.Client S)
    (st st1 st2 : S) (meta : s3.FSMeta) :
  volumeIDToBucketPrefix (csi.DVolumeId req) = (bucketName, prefix) ->
  csi.DVolumeId req <> EmptyString ->
  ValidateControllerServiceRequest cs csi.RPC_CREATE_DELETE_VOLUME = None ->
  NewClientFromSecret imp (csi.DSecrets req) = Ok client ->
  s3.BucketExists client bucketName st = (st1, Ok true) ->
  s3.GetFSMeta client bucketName prefix st1 = (st2, Ok meta) ->
  let reads := [s3.CallBucketExists bucketName; s3.CallGetFSMeta bucketName prefix] in
  run (DeleteVolume imp cs req) st
  = let '(st3, removed) :=
      if String.eqb prefix "" then (st2, None)
      else s3.RemovePrefix client bucketName prefix st2 in
    match removed with
    | Some e =>
        (st3, reads ++ prefixCalls bucketName prefix,
         Err (WrapError ("unable to remove prefix: " +:+ Error e) e))
    | None =>
        if s3.CreatedByCsi meta then
          let '(st4, gone) := s3.RemoveBucket client bucketName st3 in
          (st4, reads ++ prefixCalls bucketName prefix ++ [s3.CallRemoveBucket bucketName],
           match gone with
           | None => Ok csi.mkDeleteVolumeResponse
           | Some e => Err e
           end)
        else (st3, reads ++ prefixCalls bucketName prefix, Ok csi.mkDeleteVolumeResponse)
    end.
Proof.
  intros Hd Hid Hv Hcl Hbe Hgm reads. unfold_handler. answer Hd.
  rewrite (strlen_nonzero _ Hid). answer Hv. answer Hcl. answer Hbe. answer Hgm.
  unfold prefixCalls.
  destruct (String.eqb prefix ""); cbn [negb store calls app].
  - destruct (s3.CreatedByCsi meta); cbn [store calls app]; [|reflexivity].
    destruct (s3.RemoveBucket client bucketName st2) as [st4 [e|]]; reflexivity.
  - destruct (s3.RemovePrefix client bucketName prefix st2) as [st3 [e|]];
      cbn [store calls app]; [reflexivity|].
    destruct (s3.CreatedByCsi meta); cbn [store calls app]; [|reflexivity].
    destruct (s3.RemoveBucket client bucketName st3) as [st4 [e|]]; reflexivity.
Qed.

(** C3.  DeleteVolume on a request that passes the argument checks.  When
    the bucket does not exist it succeeds after the existence check alone,
    nothing written.  When the bucket exists, its metadata is readable and
    says [CreatedByCsi], the bucket is removed (a RemoveBucket is sent, and
    its answer is the call's answer).  When the metadata says the bucket was
    not created by the driver, no RemoveBucket is sent and the call
    succeeds; nothing at all is written when the prefix is empty.  (A
    non-empty prefix is removed first in both cases; [prefixRemoved] says
    this went well.) *)
Theorem DeleteVolume_outcomes (req : csi.DeleteVolumeRequest)
    (bucketName prefix : string) (client : s3.Client S) (st : S) :
  volumeIDToBucketPrefix (csi.DVolumeId req) = (bucketName, prefix) ->
  csi.DVolumeId req <> EmptyString ->
  ValidateControllerServiceRequest cs csi.RPC_CREATE_DELETE_VOLUME = None ->
  NewClientFromSecret imp (csi.DSecrets req) = Ok client ->
  let reads := [s3.CallBucketExists bucketName; s3.CallGetFSMeta bucketName prefix] in
  (forall st1 : S,
      s3.BucketExists client bucketName st = (st1, Ok false) ->
      run (DeleteVolume imp cs req) st
      = (st1, [s3.CallBucketExists bucketName], Ok csi.mkDeleteVolumeResponse))
  /\ (forall (st1 st2 st3 st4 : S) (meta : s3.FSMeta) (gone : option error),
         s3.BucketExists client bucketName st = (st1, Ok true) ->
         s3.GetFSMeta client bucketName prefix st1 = (st2, Ok meta) ->
         s3.CreatedByCsi meta = true ->
         prefixRemoved client bucketName prefix st2 st3 ->
         s3.RemoveBucket client bucketName st3 = (st4, gone) ->
         run (DeleteVolume imp cs req) st
         = (st4, reads ++ prefixCalls bucketName prefix ++ [s3.CallRemoveBucket bucketName],
            match gone with
            | None => Ok csi.mkDeleteVolumeResponse
            | Some e => Err e
            end))
  /\ (forall (st1 st2 st3 : S) (meta : s3.FSMeta),
         s3.BucketExists client bucketName st = (st1, Ok true) ->
         s3.GetFSMeta client bucketName prefix st1 = (st2, Ok meta) ->
         s3.CreatedByCsi meta = false ->
         prefixRemoved client bucketName prefix st2 st3 ->
         run (DeleteVolume imp cs req) st
         = (st3, reads ++ prefixCalls bucketName prefix, Ok csi.mkDeleteVolumeResponse)
         /\ existsb (s3.removesBucket bucketName) (reads ++ prefixCalls bucketName prefix)
            = false
         /\ (prefix = EmptyString ->
             forallb (fun c => negb (s3.mutating c)) (reads ++ prefixCalls bucketName prefix)
             = true)).
Proof.
  intros Hd Hid Hv Hcl reads. split; [|split].
  - intros st1 Hbe. unfold_handler. answer Hd.
    rewrite (strlen_nonzero _ Hid). answer Hv. answer Hcl. answer Hbe.
    reflexivity.
  - intros st1 st2 st3 st4 meta gone Hbe Hgm Hcsi Hrp Hrb.
    rewrite (DeleteVolume_existing_run req _ _ _ _ _ _ _ Hd Hid Hv Hcl Hbe Hgm).
    unfold prefixRemoved in Hrp. rewrite Hcsi.
    destruct (String.eqb prefix ""); [subst st3|rewrite Hrp];
      rewrite Hrb; reflexivity.
  - intros st1 st2 st3 meta Hbe Hgm Hcsi Hrp.
    rewrite (DeleteVolume_existing_run req _ _ _ _ _ _ _ Hd Hid Hv Hcl Hbe Hgm).
    unfold prefixRemoved in Hrp. unfold prefixCalls. rewrite Hcsi.
    split; [|split].
    + destruct (String.eqb prefix ""); [subst st3|rewrite Hrp]; reflexivity.
    + destruct (String.eqb prefix ""); reflexivity.
    + intros ->. reflexivity.
Qed.

(** C1, as the code has it.  DeleteVolume of an identifier with a non-empty
    prefix, on an existing bucket with readable metadata, first removes
    that prefix.  The bucket is left in place only when the metadata's
    [CreatedByCsi] is false: the prefix removal is then the only write.
    When [CreatedByCsi] is true the bucket is removed right after the
    prefix. *)
Theorem DeleteVolume_with_prefix (req : csi.DeleteVolumeRequest)
    (bucketName prefix : string) (client : s3.Client S)
    (st st1 st2 st3 : S) (meta : s3.FSMeta) :
  volumeIDToBucketPrefix (csi.DVolumeId req) = (bucketName, prefix) ->
  prefix <> EmptyString ->
  ValidateControllerServiceRequest cs csi.RPC_CREATE_DELETE_VOLUME = None ->
  NewClientFromSecret imp (csi.DSecrets req) = Ok client ->
  s3.BucketExists client bucketName st = (st1, Ok true) ->
  s3.GetFSMeta client bucketName prefix st1 = (st2, Ok meta) ->
  s3.RemovePrefix client bucketName prefix st2 = (st3, None) ->
  (s3.CreatedByCsi meta = false ->
     run (DeleteVolume imp cs req) st
     = (st3,
        [s3.CallBucketExists bucketName; s3.CallGetFSMeta bucketName prefix;
         s3.CallRemovePrefix bucketName prefix],
        Ok csi.mkDeleteVolumeResponse))
  /\ (s3.CreatedByCsi meta = true ->
      forall (st4 : S) (gone : option error),
        s3.RemoveBucket client bucketName st3 = (st4, gone) ->
        run (DeleteVolume imp cs req) st
        = (st4,
           [s3.CallBucketExists bucketName; s3.CallGetFSMeta bucketName prefix;
            s3.CallRemovePrefix bucketName prefix; s3.CallRemoveBucket bucketName],
           match gone with
           | None => Ok csi.mkDeleteVolumeResponse
           | Some e => Err e
           end)).
Proof.
  intros Hd Hp Hv Hcl Hbe Hgm Hrp.
  assert (Hid : csi.DVolumeId req <> EmptyString).
  { intros Hnil. rewrite Hnil in Hd. inversion Hd. congruence. }
  assert (Hne : String.eqb prefix "" = false) by (apply String.eqb_neq; exact Hp).
  pose proof (DeleteVolume_existing_run req _ _ _ _ _ _ _ Hd Hid Hv Hcl Hbe Hgm) as Hrun.
  cbv zeta in Hrun. unfold prefixCalls in Hrun. rewrite Hne, Hrp in Hrun.
  split.
  - intros Hcsi. rewrite Hrun, Hcsi. reflexivity.
  - intros Hcsi st4 gone Hrb. rewrite Hrun, Hcsi, Hrb. reflexivity.
Qed.

End Handlers.

(** ** The theorems at work on the in-memory store *)

Section Witnesses.

Import Examples.

Lemma sanitizeVolumeID_spec_witness :
  sanitizeVolumeID MemS3.imports "My-Volume" = "my-volume"
  /\ sanitizeVolumeID MemS3.imports longName
     = "f0e8aa52588fbf28ce6187c42c5d52a848d87779"
  /\ sanitizeVolumeID MemS3.imports "MY-VOLUME" = sanitizeVolumeID MemS3.imports "My-Volume".
Proof.
  split; [|split].
  - rewrite (proj1 (sanitizeVolumeID_spec MemS3.imports "My-Volume")). evaluate.
  - rewrite (proj1 (sanitizeVolumeID_spec MemS3.imports longName)). evaluate.
  - apply (proj2 (proj2 (proj2 (sanitizeVolumeID_spec MemS3.imports "My-Volume")))).
    evaluate.
Defined.

Lemma decode_of_derived_witness :
  containsSlash (sanitizeVolumeID MemS3.imports "My-Volume") = false
  /\ volumeIDToBucketPrefix (sanitizeVolumeID MemS3.imports "My-Volume")
     = (sanitizeVolumeID MemS3.imports "My-Volume", EmptyString)
  /\ volumeIDToBucketPrefix (sanitizeVolumeID MemS3.imports longName)
     = (sanitizeVolumeID MemS3.imports longName, EmptyString).
Proof.
  split; [evaluate|split]; apply decode_of_derived; evaluate.
Defined.

(** A replay asking for 2 GiB of the 1 GiB volume is refused; one asking
    for 1 KiB succeeds and rewrites the record with the new mounter only. *)
Lemma CreateVolume_existing_volume_witness :
  run (CreateVolume MemS3.imports MemS3.server (createReq 2147483648 (Some [writer])))
      (ownStore true)
  = (ownStore true,
     [s3.CallBucketExists "my-volume"; s3.CallGetFSMeta "my-volume" ""],
     Err (StatusError AlreadyExists
            "Volume with the same name: my-volume but with smaller size already exist"))
  /\ run (CreateVolume MemS3.imports MemS3.server (createReq 1024 (Some [writer])))
         (ownStore true)
     = (ownStoreRclone,
        [s3.CallBucketExists "my-volume"; s3.CallGetFSMeta "my-volume" "";
         s3.CallSetFSMeta (s3.mkFSMeta "my-volume" "" "rclone" 1073741824 "csi-fs" true)],
        Ok (csi.mkCreateVolumeResponse
              (Some (csi.mkVolume "my-volume" 1024 {["mounter" := "rclone"]})))).
Proof.
  split.
  - rewrite (proj1 (proj1 (CreateVolume_existing_volume MemS3.imports MemS3.server
               (createReq 2147483648 (Some [writer])) "my-volume" "" "my-volume"
               MemS3.client (ownStore true) (ownStore true) (ownStore true)
               (ownMeta true)
               ltac:(evaluate) ltac:(evaluate) ltac:(evaluate) ltac:(evaluate)
               ltac:(evaluate) ltac:(evaluate) ltac:(evaluate))
             ltac:(evaluate))).
    evaluate.
  - destruct (CreateVolume_existing_volume MemS3.imports MemS3.server
                (createReq 1024 (Some [writer])) "my-volume" "" "my-volume"
                MemS3.client (ownStore true) (ownStore true) (ownStore true)
                (ownMeta true)) as (_ & Hle & _); [evaluate..|].
    rewrite (Hle ltac:(evaluate) ownStoreRclone ltac:(evaluate)).
    evaluate.
Defined.

(** A bucket without a metadata record gets one marked as not created by
    the driver. *)
Lemma CreateVolume_unreadable_metadata_witness :
  run (CreateVolume MemS3.imports MemS3.server (createReq 1024 (Some [writer])))
      bareStore
  = (bareStoreClaimed,
     [s3.CallBucketExists "my-volume"; s3.CallGetFSMeta "my-volume" "";
      s3.CallSetFSMeta (s3.mkFSMeta "my-volume" "" "rclone" 1024 "csi-fs" false)],
     Ok (csi.mkCreateVolumeResponse
           (Some (csi.mkVolume "my-volume" 1024 {["mounter" := "rclone"]})))).
Proof.
  rewrite (CreateVolume_unreadable_metadata MemS3.imports MemS3.server
             (createReq 1024 (Some [writer])) "my-volume" "" "my-volume"
             MemS3.client bareStore bareStore bareStore bareStoreClaimed
             (PlainError "The specified key does not exist.") None
             ltac:(evaluate) ltac:(evaluate) ltac:(evaluate) ltac:(evaluate)
             ltac:(evaluate) ltac:(evaluate) ltac:(evaluate) ltac:(evaluate)).
  evaluate.
Defined.

(** The replay for 1 KiB of the volume stored with 1 GiB answers 1 KiB. *)
Lemma CreateVolume_echoes_requested_capacity_witness :
  s3.CapacityBytes (ownMeta true) = 1073741824
  /\ exists vol : csi.Volume,
       csi.Volume_ (csi.mkCreateVolumeResponse
                      (Some (csi.mkVolume "my-volume" 1024 {["mounter" := "rclone"]})))
       = Some vol
       /\ csi.CapacityBytes vol
          = csi.GetRequiredBytes (csi.CapacityRange_ (createReq 1024 (Some [writer]))).
Proof.
  split; [reflexivity|].
  apply (CreateVolume_echoes_requested_capacity MemS3.imports MemS3.server
           (createReq 1024 (Some [writer])) (ownStore true) ownStoreRclone
           [s3.CallBucketExists "my-volume"; s3.CallGetFSMeta "my-volume" "";
            s3.CallSetFSMeta (s3.mkFSMeta "my-volume" "" "rclone" 1073741824 "csi-fs" true)]).
  evaluate.
Defined.

(** Nil capability lists are refused and empty ones are not; the empty
    list is confirmed for the existing volume. *)
Lemma capabilities_refused_only_when_nil_witness :
  run (CreateVolume MemS3.imports MemS3.server (createReq 1024 None)) ∅
  = (∅, [], Err (StatusError InvalidArgument "Volume Capabilities missing in request"))
  /\ run (CreateVolume MemS3.imports MemS3.server (createReq 1024 (Some []))) ∅
     <> (∅, [], Err (StatusError InvalidArgument "Volume Capabilities missing in request"))
  /\ run (ValidateVolumeCapabilities MemS3.imports MemS3.server
            (validateReq "my-volume" None)) (ownStore true)
     = (ownStore true, [],
        Err (StatusError InvalidArgument "Volume capabilities missing in request"))
  /\ run (ValidateVolumeCapabilities MemS3.imports MemS3.server
            (validateReq "my-volume" (Some []))) ∅
     <> (∅, [], Err (StatusError InvalidArgument "Volume capabilities missing in request"))
  /\ run (ValidateVolumeCapabilities MemS3.imports MemS3.server
            (validateReq "my-volume" (Some []))) (ownStore true)
     = (ownStore true,
        [s3.CallBucketExists "my-volume"; s3.CallGetFSMeta "my-volume" ""],
        Ok confirmedResponse).
Proof.
  destruct (capabilities_refused_only_when_nil MemS3.imports MemS3.server)
    as (H1 & H2 & H3 & H4 & H5).
  split; [|split; [|split; [|split]]].
  - apply H1; evaluate.
  - apply (H2 _ []); evaluate.
  - apply H3; evaluate.
  - apply (H4 _ [] MemS3.client ∅ ∅ ∅ false); evaluate.
  - apply (H5 _ "my-volume" "" MemS3.client _ (ownStore true) (ownStore true)
              (ownMeta true)); evaluate.
Defined.

(** The four answers of ValidateVolumeCapabilities. *)
Lemma ValidateVolumeCapabilities_outcomes_witness :
  run (ValidateVolumeCapabilities MemS3.imports MemS3.server
         (validateReq "my-volume" (Some [writer]))) ∅
  = (∅, [s3.CallBucketExists "my-volume"],
     Err (StatusError NotFound "bucket of volume with id my-volume does not exist"))
  /\ run (ValidateVolumeCapabilities MemS3.imports MemS3.server
            (validateReq "my-volume" (Some [writer]))) bareStore
     = (bareStore,
        [s3.CallBucketExists "my-volume"; s3.CallGetFSMeta "my-volume" ""],
        Err (StatusError NotFound "fsmeta of volume with id my-volume does not exist"))
  /\ run (ValidateVolumeCapabilities MemS3.imports MemS3.server
            (validateReq "my-volume" (Some [writer; writer]))) (ownStore true)
     = (ownStore true,
        [s3.CallBucketExists "my-volume"; s3.CallGetFSMeta "my-volume" ""],
        Ok confirmedResponse)
  /\ run (ValidateVolumeCapabilities MemS3.imports MemS3.server
            (validateReq "my-volume" (Some [writer; multiWriter]))) (ownStore true)
     = (ownStore true,
        [s3.CallBucketExists "my-volume"; s3.CallGetFSMeta "my-volume" ""],
        Ok unsupportedResponse).
Proof.
  split; [|split; [|split]].
  - destruct (ValidateVolumeCapabilities_outcomes MemS3.imports MemS3.server
                (validateReq "my-volume" (Some [writer])) "my-volume" ""
                [writer] MemS3.client ∅) as (H & _ & _); [evaluate..|].
    rewrite (H ∅ ltac:(evaluate)). evaluate.
  - destruct (ValidateVolumeCapabilities_outcomes MemS3.imports MemS3.server
                (validateReq "my-volume" (Some [writer])) "my-volume" ""
                [writer] MemS3.client bareStore) as (_ & H & _); [evaluate..|].
    rewrite (H bareStore bareStore (PlainError "The specified key does not exist.")
               ltac:(evaluate) ltac:(evaluate)).
    evaluate.
  - destruct (ValidateVolumeCapabilities_outcomes MemS3.imports MemS3.server
                (validateReq "my-volume" (Some [writer; writer])) "my-volume" ""
                [writer; writer] MemS3.client (ownStore true)) as (_ & _ & H);
      [evaluate..|].
    rewrite (H (ownStore true) (ownStore true) (ownMeta true)
               ltac:(evaluate) ltac:(evaluate)).
    evaluate.
  - destruct (ValidateVolumeCapabilities_outcomes MemS3.imports MemS3.server
                (validateReq "my-volume" (Some [writer; multiWriter])) "my-volume" ""
                [writer; multiWriter] MemS3.client (ownStore true)) as (_ & _ & H);
      [evaluate..|].
    rewrite (H (ownStore true) (ownStore true) (ownMeta true)
               ltac:(evaluate) ltac:(evaluate)).
    evaluate.
Defined.

(** Deleting a missing volume, the driver's own bucket, somebody else's
    bucket, and a volume under a prefix of somebody else's bucket. *)
Lemma DeleteVolume_outcomes_witness :
  run (DeleteVolume MemS3.imports MemS3.server (deleteReq "my-volume")) ∅
  = (∅, [s3.CallBucketExists "my-volume"], Ok csi.mkDeleteVolumeResponse)
  /\ run (DeleteVolume MemS3.imports MemS3.server (deleteReq "my-volume")) (ownStore true)
     = (∅,
        [s3.CallBucketExists "my-volume"; s3.CallGetFSMeta "my-volume" "";
         s3.CallRemoveBucket "my-volume"],
        Ok csi.mkDeleteVolumeResponse)
  /\ run (DeleteVolume MemS3.imports MemS3.server (deleteReq "my-volume")) (ownStore false)
     = (ownStore false,
        [s3.CallBucketExists "my-volume"; s3.CallGetFSMeta "my-volume" ""],
        Ok csi.mkDeleteVolumeResponse)
  /\ run (DeleteVolume MemS3.imports MemS3.server (deleteReq "bucket/vol"))
         (sharedStore false)
     = (sharedStoreRest,
        [s3.CallBucketExists "bucket"; s3.CallGetFSMeta "bucket" "vol";
         s3.CallRemovePrefix "bucket" "vol"],
        Ok csi.mkDeleteVolumeResponse).
Proof.
  split; [|split; [|split]].
  - destruct (DeleteVolume_outcomes MemS3.imports MemS3.server
                (deleteReq "my-volume") "my-volume" "" MemS3.client ∅)
      as (H & _ & _); [evaluate..|].
    rewrite (H ∅ ltac:(evaluate)). evaluate.
  - destruct (DeleteVolume_outcomes MemS3.imports MemS3.server
                (deleteReq "my-volume") "my-volume" "" MemS3.client (ownStore true))
      as (_ & H & _); [evaluate..|].
    rewrite (H (ownStore true) (ownStore true) (ownStore true) ∅ (ownMeta true) None
               ltac:(evaluate) ltac:(evaluate) ltac:(evaluate) ltac:(evaluate)
               ltac:(evaluate)).
    evaluate.
  - destruct (DeleteVolume_outcomes MemS3.imports MemS3.server
                (deleteReq "my-volume") "my-volume" "" MemS3.client (ownStore false))
      as (_ & _ & H); [evaluate..|].
    destruct (H (ownStore false) (ownStore false) (ownStore false) (ownMeta false)
                ltac:(evaluate) ltac:(evaluate) ltac:(evaluate) ltac:(evaluate))
      as (Hrun & _ & _).
    rewrite Hrun. evaluate.
  - destruct (DeleteVolume_outcomes MemS3.imports MemS3.server
                (deleteReq "bucket/vol") "bucket" "vol" MemS3.client (sharedStore false))
      as (_ & _ & H); [evaluate..|].
    destruct (H (sharedStore false) (sharedStore false) sharedStoreRest (sharedMeta false)
                ltac:(evaluate) ltac:(evaluate) ltac:(evaluate) ltac:(evaluate))
      as (Hrun & _ & _).
    rewrite Hrun. evaluate.
Defined.

(** Deleting the volume ["vol"] of the shared bucket: the other volume
    survives when the bucket was not created by the driver, and goes with
    the bucket when it was. *)
Lemma DeleteVolume_with_prefix_witness :
  run (DeleteVolume MemS3.imports MemS3.server (deleteReq "bucket/vol"))
      (sharedStore false)
  = (sharedStoreRest,
     [s3.CallBucketExists "bucket"; s3.CallGetFSMeta "bucket" "vol";
      s3.CallRemovePrefix "bucket" "vol"],
     Ok csi.mkDeleteVolumeResponse)
  /\ run (DeleteVolume MemS3.imports MemS3.server (deleteReq "bucket/vol"))
         (sharedStore true)
     = (∅,
        [s3.CallBucketExists "bucket"; s3.CallGetFSMeta "bucket" "vol";
         s3.CallRemovePrefix "bucket" "vol"; s3.CallRemoveBucket "bucket"],
        Ok csi.mkDeleteVolumeResponse).
Proof.
  split.
  - destruct (DeleteVolume_with_prefix MemS3.imports MemS3.server
                (deleteReq "bucket/vol") "bucket" "vol" MemS3.client
                (sharedStore false) (sharedStore false) (sharedStore false)
                sharedStoreRest (sharedMeta false)) as (H & _); [evaluate..|].
    rewrite (H ltac:(evaluate)). reflexivity.
  - destruct (DeleteVolume_with_prefix MemS3.imports MemS3.server
                (deleteReq "bucket/vol") "bucket" "vol" MemS3.client
                (sharedStore true) (sharedStore true) (sharedStore true)
                sharedStoreRest (sharedMeta true)) as (_ & H); [evaluate..|].
    rewrite (H ltac:(evaluate) ∅ None ltac:(evaluate)). reflexivity.
Defined.

(** C1 as stated fails: the identifier ["bucket/vol"] decodes to the
    non-empty prefix ["vol"], the bucket exists and the metadata is
    readable, with [CreatedByCsi = true]; DeleteVolume succeeds, and the
    bucket, which also held the volume ["other"], is gone afterwards. *)
Lemma DeleteVolume_prefix_removes_created_bucket :
  let st := sharedStore true in
  let '(st', sent, answer) :=
    run (DeleteVolume MemS3.imports MemS3.server (deleteReq "bucket/vol")) st in
  volumeIDToBucketPrefix "bucket/vol" = ("bucket", "vol")
  /\ MemS3.BucketExists "bucket" st = (st, Ok true)
  /\ MemS3.GetFSMeta "bucket" "vol" st = (st, Ok (sharedMeta true))
  /\ answer = Ok csi.mkDeleteVolumeResponse
  /\ existsb (s3.removesBucket "bucket") sent = true
  /\ st' !! "bucket" = None.
Proof. vm_compute. repeat split. Qed.

End Witnesses.

(** ** More on the identity codec *)

Section CodecFacts.

Lemma lowerByte_idem (c : ascii) : lowerByte (lowerByte c) = lowerByte c.
Proof. destruct c as [[] [] [] [] [] [] [] []]; reflexivity. Qed.

Lemma lowerByte_ascii (c : ascii) : isASCII (lowerByte c) = isASCII c.
Proof. destruct c as [[] [] [] [] [] [] [] []]; reflexivity. Qed.

Lemma hexDigit_lower (c : ascii) :
  isHexDigit c = true -> isASCII c = true /\ lowerByte c = c /\ Ascii.eqb c "/" = false.
Proof.
  destruct c as [[] [] [] [] [] [] [] []]; intros H;
    first [discriminate H | repeat split].
Qed.

Lemma mapBytes_length (f : ascii -> ascii) (s : string) :
  String.length (mapBytes f s) = String.length s.
Proof. induction s as [|c r IH]; simpl; [reflexivity|]. rewrite IH. reflexivity. Qed.

Lemma mapBytes_lower_idem (s : string) :
  mapBytes lowerByte (mapBytes lowerByte s) = mapBytes lowerByte s.
Proof.
  induction s as [|c r IH]; simpl; [reflexivity|].
  rewrite lowerByte_idem, IH. reflexivity.
Qed.

Lemma mapBytes_lower_ascii (s : string) :
  allASCII (mapBytes lowerByte s) = allASCII s.
Proof.
  induction s as [|c r IH]; simpl; [reflexivity|].
  rewrite lowerByte_ascii, IH. reflexivity.
Qed.

(** On an ASCII string lower-casing twice is lower-casing once. *)
Lemma ToLower_idem (u : string -> string) (s : string) :
  allASCII s = true -> ToLower u (ToLower u s) = ToLower u s.
Proof.
  intros Hs. unfold ToLower. rewrite Hs, mapBytes_lower_ascii, Hs.
  apply mapBytes_lower_idem.
Qed.

Lemma ToLower_fixed (u : string -> string) (s : string) :
  allASCII s = true -> mapBytes lowerByte s = s -> ToLower u s = s.
Proof. intros Ha Hl. unfold ToLower. rewrite Ha. exact Hl. Qed.

(** A string of hexadecimal digits is ASCII, lower case and free of
    slashes. *)
Lemma allHex_lower (s : string) :
  allHex s = true ->
  allASCII s = true /\ mapBytes lowerByte s = s /\ containsSlash s = false.
Proof.
  induction s as [|c r IH]; simpl; [repeat split|].
  intros H. apply andb_true_iff in H as [Hc Hr].
  destruct (hexDigit_lower c Hc) as (Ha & Hl & Hs).
  destruct (IH Hr) as (IHa & IHl & IHs).
  rewrite Ha, Hl, Hs, IHa, IHl, IHs. repeat split.
Qed.

Lemma digest_facts (s : string) :
  let d := EncodeToString (sha1Sum s) in
  String.length d = 40%nat /\ allASCII d = true
  /\ mapBytes lowerByte d = d /\ containsSlash d = false.
Proof.
  intros d. split.
  - unfold d. rewrite EncodeToString_length, sha1Sum_length. reflexivity.
  - apply allHex_lower, EncodeToString_allHex, sha1Sum_bytes.
Qed.

Lemma strlen_gtb (s : string) (n : nat) :
  (strlen s >? Z.of_nat n) = negb (String.length s <=? n)%nat.
Proof.
  unfold strlen.
  destruct (Z.gtb_spec (Z.of_nat (String.length s)) (Z.of_nat n));
    destruct (Nat.leb_spec (String.length s) n); try reflexivity; lia.
Qed.

Lemma sanitizeVolumeID_unfold {S} (imp : Imports S) (name : string) :
  sanitizeVolumeID imp name
  = if (String.length (ToLower (unicodeLower imp) name) <=? 63)%nat
    then ToLower (unicodeLower imp) name
    else EncodeToString (sha1Sum (ToLower (unicodeLower imp) name)).
Proof.
  unfold sanitizeVolumeID. change 63 with (Z.of_nat 63). rewrite strlen_gtb.
  destruct (String.length (ToLower (unicodeLower imp) name) <=? 63)%nat; reflexivity.
Qed.

(** X1.  The identifier [sanitizeVolumeID] derives never has more than 63
    bytes, whatever the name. *)
Theorem sanitizeVolumeID_length {S} (imp : Imports S) (name : string) :
  (String.length (sanitizeVolumeID imp name) <= 63)%nat.
Proof.
  rewrite sanitizeVolumeID_unfold.
  destruct (Nat.leb_spec (String.length (ToLower (unicodeLower imp) name)) 63) as [H|H].
  - exact H.
  - destruct (digest_facts (ToLower (unicodeLower imp) name)) as (Hlen & _).
    rewrite Hlen. lia.
Qed.

(** X2.  On ASCII names [sanitizeVolumeID] is idempotent: deriving an
    identifier from an identifier gives it back, so an identifier can be
    used as a name again. *)
Theorem sanitizeVolumeID_idempotent {S} (imp : Imports S) (name : string) :
  allASCII name = true ->
  sanitizeVolumeID imp (sanitizeVolumeID imp name) = sanitizeVolumeID imp name.
Proof.
  intros Hascii. rewrite (sanitizeVolumeID_unfold imp name).
  destruct (Nat.leb_spec (String.length (ToLower (unicodeLower imp) name)) 63) as [H|H].
  - rewrite sanitizeVolumeID_unfold, ToLower_idem by exact Hascii.
    apply Nat.leb_le in H. rewrite H. reflexivity.
  - destruct (digest_facts (ToLower (unicodeLower imp) name)) as (Hlen & Ha & Hl & _).
    rewrite sanitizeVolumeID_unfold, (ToLower_fixed _ _ Ha Hl), Hlen.
    reflexivity.
Qed.

(** X3.  A name whose lower-casing exceeds 63 bytes gets an identifier of
    exactly 40 bytes without a slash: it always decodes to itself as the
    bucket with the empty prefix, and it is a fixed point of
    [sanitizeVolumeID], so the 40-byte name spelled like the digest derives
    the same identifier as the long name. *)
Theorem sanitizeVolumeID_long_name {S} (imp : Imports S) (name : string) :
  (63 < String.length (ToLower (unicodeLower imp) name))%nat ->
  let id := sanitizeVolumeID imp name in
  String.length id = 40%nat
  /\ containsSlash id = false
  /\ volumeIDToBucketPrefix id = (id, EmptyString)
  /\ sanitizeVolumeID imp id = id.
Proof.
  intros Hlong id. unfold id. rewrite (sanitizeVolumeID_unfold imp name).
  destruct (Nat.leb_spec (String.length (ToLower (unicodeLower imp) name)) 63) as [H|_];
    [lia|].
  destruct (digest_facts (ToLower (unicodeLower imp) name)) as (Hlen & Ha & Hl & Hs).
  split; [exact Hlen|]. split; [exact Hs|]. split.
  - apply volumeIDToBucketPrefix_no_slash, Hs.
  - rewrite sanitizeVolumeID_unfold, (ToLower_fixed _ _ Ha Hl), Hlen.
    reflexivity.
Qed.

Lemma Split_elements (s : string) :
  Forall (fun e => containsSlash e = false) (Split s "/").
Proof.
  induction s as [|c r IH]; simpl.
  - repeat constructor.
  - destruct (Ascii.eqb c "/") eqn:Hc.
    + constructor; [reflexivity|exact IH].
    + destruct (Split r "/") as [|h t].
      * repeat constructor. simpl. rewrite Hc. reflexivity.
      * inversion IH as [|? ? Hh Ht]; subst. constructor; [|exact Ht].
        simpl. rewrite Hc, Hh. reflexivity.
Qed.

(** A string with a slash is its first split element, a slash and a rest,
    and the remaining split elements are those of the rest. *)
Lemma Split_first (s : string) :
  containsSlash s = true ->
  exists h rest : string,
    s = h +:+ String "/" rest /\ containsSlash h = false
    /\ Split s "/" = h :: Split rest "/".
Proof.
  induction s as [|c r IH]; simpl; [discriminate|].
  destruct (Ascii.eqb c "/") eqn:Hc; simpl.
  - intros _. apply Ascii.eqb_eq in Hc. subst c.
    exists EmptyString, r. repeat split.
  - intros Hr. destruct (IH Hr) as (h & rest & -> & Hh & Hsplit).
    exists (String c h), rest. simpl. rewrite Hc, Hh, Hsplit. repeat split.
Qed.

Lemma containsSlash_app (a b : string) :
  containsSlash (a +:+ String "/" b) = true.
Proof.
  induction a as [|c a IH]; simpl; [reflexivity|].
  rewrite IH. apply orb_true_r.
Qed.

(** X4.  Whatever the identifier, the bucket and the prefix that
    [volumeIDToBucketPrefix] returns contain no slash.  The bucket is the
    text before the first slash, and it is the whole identifier exactly
    when the identifier has no slash. *)
Theorem volumeIDToBucketPrefix_shape (id : string) :
  containsSlash (volumeIDToBucketPrefix id).1 = false
  /\ containsSlash (volumeIDToBucketPrefix id).2 = false
  /\ ((volumeIDToBucketPrefix id).1 = id <-> containsSlash id = false)
  /\ (containsSlash id = true ->
      exists rest : string, id = (volumeIDToBucketPrefix id).1 +:+ String "/" rest).
Proof.
  destruct (containsSlash id) eqn:Hid.
  - destruct (Split_first id Hid) as (h & rest & -> & Hh & _).
    rewrite (volumeIDToBucketPrefix_slash h rest Hh). cbn [fst snd].
    pose proof (Split_elements rest) as Hall.
    pose proof (Split_nonempty rest "/") as Hne.
    destruct (Split rest "/") as [|p t]; [contradiction|].
    inversion Hall as [|? ? Hp _]; subst. cbn [hd].
    split; [exact Hh|]. split; [exact Hp|]. split.
    + split; [|discriminate]. intros Heq.
      rewrite <- Heq, Hh in Hid. discriminate.
    + intros _. exists rest. reflexivity.
  - rewrite (volumeIDToBucketPrefix_no_slash id Hid). cbn [fst snd].
    split; [exact Hid|]. split; [reflexivity|]. split; [|discriminate].
    split; reflexivity.
Qed.

Lemma isRooted_cons (c : ascii) (r : string) :
  isRooted (String c r) = Ascii.eqb c "/".
Proof. destruct c as [[] [] [] [] [] [] [] []]; reflexivity. Qed.

Lemma plainElement_facts (e : string) :
  plainElement e = true ->
  containsSlash e = false /\ String.eqb e "" = false
  /\ String.eqb e "." = false /\ String.eqb e ".." = false.
Proof.
  unfold plainElement. intros H.
  repeat (apply andb_true_iff in H as [H ?]).
  repeat split; apply negb_true_iff; assumption.
Qed.

Lemma Clean_nonempty (p : string) : Clean p <> EmptyString.
Proof.
  unfold Clean. cbv zeta.
  destruct (isRooted p); [discriminate|].
  destruct (String.eqb _ "") eqn:E; [discriminate|].
  intros Hnil. rewrite Hnil in E. discriminate.
Qed.

(** [path.Join] of two elements is empty only when both are. *)
Lemma Join_empty (a b : string) :
  Join [a; b] = EmptyString <-> a = EmptyString /\ b = EmptyString.
Proof.
  unfold Join. cbn [forallb].
  destruct (String.eqb_spec a ""); destruct (String.eqb_spec b "");
    cbn [andb]; subst.
  - split; [intros _; split|]; reflexivity.
  - split; [intros H; apply Clean_nonempty in H; contradiction|].
    intros [_ ?]. contradiction.
  - split; [intros H; apply Clean_nonempty in H; contradiction|].
    intros [? _]. contradiction.
  - split; [intros H; apply Clean_nonempty in H; contradiction|].
    intros [? _]. contradiction.
Qed.

(** Two plain elements are joined by one slash and left alone. *)
Lemma Join_plain (a b : string) :
  plainElement a = true -> plainElement b = true ->
  Join [a; b] = a +:+ String "/" b.
Proof.
  intros Ha Hb.
  destruct (plainElement_facts a Ha) as (Has & Hae & Had & Hadd).
  destruct (plainElement_facts b Hb) as (Hbs & Hbe & Hbd & Hbdd).
  unfold Join. cbn [forallb fold_left]. rewrite Hae. cbn [andb].
  change (String.eqb "" "") with true. cbv iota. rewrite Hae.
  change (a +:+ "/" +:+ b) with (a +:+ String "/" b).
  unfold Clean. cbv zeta.
  rewrite (Split_app_sep a b Has), (Split_no_sep b Hbs).
  cbn [fold_left]. unfold cleanStep.
  rewrite Hae, Had, Hadd, Hbe, Hbd, Hbdd. cbn [orb rev app joinSlash fold_left].
  change (a +:+ "/" +:+ b) with (a +:+ String "/" b).
  destruct a as [|c a']; [discriminate Hae|].
  change (String c a' +:+ String "/" b) with (String c (a' +:+ String "/" b)).
  rewrite isRooted_cons.
  cbn [containsSlash] in Has. apply orb_false_iff in Has as [Hc _].
  rewrite Hc. reflexivity.
Qed.

(** X5.  Decoding undoes CreateVolume's encoding.  When the request
    overrides the bucket and both the override and the derived name are
    plain path elements, or when there is no override and the derived name
    has no slash, [volumeIDToBucketPrefix] applied to the volume ID that
    CreateVolume answers with returns the very bucket and prefix
    CreateVolume worked on. *)
Theorem createNames_decode {S} (imp : Imports S) (req : csi.CreateVolumeRequest)
    (bucketName prefix volumeID : string) :
  createNames imp req = (bucketName, prefix, volumeID) ->
  match csi.Parameters req !! BucketKey imp with
  | Some nameOverride =>
      plainElement nameOverride && plainElement (sanitizeVolumeID imp (csi.Name req))
  | None => negb (containsSlash (sanitizeVolumeID imp (csi.Name req)))
  end = true ->
  volumeIDToBucketPrefix volumeID = (bucketName, prefix).
Proof.
  unfold createNames.
  destruct (csi.Parameters req !! BucketKey imp) as [o|]; intros Hn Hplain;
    inversion Hn; subst; clear Hn.
  - apply andb_true_iff in Hplain as [Ho Hp].
    rewrite (Join_plain _ _ Ho Hp).
    destruct (plainElement_facts _ Ho) as (Hos & _).
    destruct (plainElement_facts _ Hp) as (Hps & _).
    rewrite (volumeIDToBucketPrefix_slash _ _ Hos), (Split_no_sep _ Hps).
    reflexivity.
  - apply negb_true_iff in Hplain.
    apply volumeIDToBucketPrefix_no_slash, Hplain.
Qed.

End CodecFacts.

(** ** More on the lifecycle handlers *)

Section HandlerFacts.

Context {S : Type} (imp : Imports S) (cs : controllerServer).

(** X6.  CreateVolume on a bucket that does not exist yet: it creates the
    bucket, then the reserved path [prefix/csi-fs] inside it, then writes a
    record with the request's bucket, prefix, mounter and capacity and
    [CreatedByCsi = true], in this order, and answers with the volume (or
    with the error of the metadata write). *)
Theorem CreateVolume_new_bucket (req : csi.CreateVolumeRequest)
    (bucketName prefix volumeID : string) (client : s3.Client S)
    (st st1 st2 st3 st4 : S) (written : option error) :
  createNames imp req = (bucketName, prefix, volumeID) ->
  ValidateControllerServiceRequest cs csi.RPC_CREATE_DELETE_VOLUME = None ->
  volumeID <> EmptyString ->
  csi.VolumeCapabilities req <> None ->
  NewClientFromSecret imp (csi.Secrets req) = Ok client ->
  s3.BucketExists client bucketName st = (st1, Ok false) ->
  s3.CreateBucket client bucketName st1 = (st2, None) ->
  s3.CreatePrefix client bucketName (Join [prefix; "csi-fs"]) st2 = (st3, None) ->
  let fresh := s3.mkFSMeta bucketName prefix (createMounter imp req)
                 (createCapacity req) "csi-fs" true in
  s3.SetFSMeta client fresh st3 = (st4, written) ->
  run (CreateVolume imp cs req) st
  = (st4,
     [s3.CallBucketExists bucketName; s3.CallCreateBucket bucketName;
      s3.CallCreatePrefix bucketName (Join [prefix; "csi-fs"]);
      s3.CallSetFSMeta fresh],
     match written with
     | None => Ok (createResponse volumeID req)
     | Some err => Err (WrapError ("error setting bucket metadata: " +:+ Error err) err)
     end).
Proof.
  intros Hn Hv Hid Hcaps Hcl Hbe Hcb Hcp fresh Hset.
  unfold_handler. answer Hn. answer Hv. rewrite (strlen_nonzero _ Hid).
  destruct (csi.VolumeCapabilities req) as [caps|]; [|contradiction].
  answer Hcl. answer Hbe. unfold defaultFsPath. answer Hcb. answer Hcp.
  fold fresh. answer Hset. destruct written; reflexivity.
Qed.

(** X7.  The creation steps are not rolled back.  When creating the bucket
    fails, CreateVolume stops with that error and writes nothing more; when
    the bucket was created and creating the reserved path fails, it stops
    as well: no metadata is written and no removal of the new bucket is
    sent. *)
Theorem CreateVolume_creation_failure (req : csi.CreateVolumeRequest)
    (bucketName prefix volumeID : string) (client : s3.Client S)
    (st st1 st2 : S) (e : error) :
  createNames imp req = (bucketName, prefix, volumeID) ->
  ValidateControllerServiceRequest cs csi.RPC_CREATE_DELETE_VOLUME = None ->
  volumeID <> EmptyString ->
  csi.VolumeCapabilities req <> None ->
  NewClientFromSecret imp (csi.Secrets req) = Ok client ->
  s3.BucketExists client bucketName st = (st1, Ok false) ->
  (s3.CreateBucket client bucketName st1 = (st2, Some e) ->
   run (CreateVolume imp cs req) st
   = (st2, [s3.CallBucketExists bucketName; s3.CallCreateBucket bucketName],
      Err (PlainError ("failed to create bucket " +:+ bucketName +:+ ": " +:+ Error e))))
  /\ (s3.CreateBucket client bucketName st1 = (st2, None) ->
      forall st3 : S,
        s3.CreatePrefix client bucketName (Join [prefix; "csi-fs"]) st2 = (st3, Some e) ->
        run (CreateVolume imp cs req) st
        = (st3,
           [s3.CallBucketExists bucketName; s3.CallCreateBucket bucketName;
            s3.CallCreatePrefix bucketName (Join [prefix; "csi-fs"])],
           Err (PlainError ("failed to create prefix " +:+ Join [prefix; "csi-fs"]
                            +:+ ": " +:+ Error e)))).
Proof.
  intros Hn Hv Hid Hcaps Hcl Hbe. split.
  - intros Hcb. unfold_handler. answer Hn. answer Hv. rewrite (strlen_nonzero _ Hid).
    destruct (csi.VolumeCapabilities req) as [caps|]; [|contradiction].
    answer Hcl. answer Hbe. answer Hcb. reflexivity.
  - intros Hcb st3 Hcp. unfold_handler. answer Hn. answer Hv.
    rewrite (strlen_nonzero _ Hid).
    destruct (csi.VolumeCapabilities req) as [caps|]; [|contradiction].
    answer Hcl. answer Hbe. unfold defaultFsPath. answer Hcb. answer Hcp.
    reflexivity.
Qed.

(** X8.  Whatever the request, the client and the store, every request
    CreateVolume sends is an existence check, a metadata read, a bucket or
    reserved-path creation for the request's own bucket and prefix, or a
    metadata write: CreateVolume never sends a removal. *)
Theorem CreateVolume_sends_no_removal (req : csi.CreateVolumeRequest) (st : S) :
  let sent := (run (CreateVolume imp cs req) st).1.2 in
  forallb (createCall (createNames imp req).1.1 (createNames imp req).1.2) sent = true
  /\ existsb isRemoval sent = false.
Proof.
  destruct (createNames imp req) as [[b p] id] eqn:Hn. cbn [fst snd].
  unfold_handler. answer Hn.
  repeat case_match; simplify_eq; cbn [fst snd store calls app];
    cbn [forallb existsb createCall isRemoval];
    rewrite ?String.eqb_refl; split; reflexivity.
Qed.

(** X9.  With the driver's capability check passed, CreateVolume answers
    "Name missing" exactly when the derived name is empty and the request
    has no bucket override other than the empty string, and it does so
    before any request to the store.  A request with an empty name and a
    non-empty bucket override therefore passes the name check. *)
Theorem CreateVolume_name_missing (req : csi.CreateVolumeRequest) (st : S) :
  ValidateControllerServiceRequest cs csi.RPC_CREATE_DELETE_VOLUME = None ->
  let missing := StatusError InvalidArgument "Name missing in request" in
  let noName :=
    sanitizeVolumeID imp (csi.Name req) = EmptyString
    /\ default EmptyString (csi.Parameters req !! BucketKey imp) = EmptyString in
  (noName -> run (CreateVolume imp cs req) st = (st, [], Err missing))
  /\ (forall (st' : S) (sent : list s3.Call),
         run (CreateVolume imp cs req) st = (st', sent, Err missing) -> noName).
Proof.
  intros Hv missing noName.
  assert (Hid : forall b p id, createNames imp req = (b, p, id) ->
                               (id = EmptyString <-> noName)).
  { intros b p id. unfold createNames, noName.
    destruct (csi.Parameters req !! BucketKey imp) as [o|]; cbn [default];
      intros Hn; inversion Hn; subst.
    - rewrite Join_empty. tauto.
    - tauto. }
  destruct (createNames imp req) as [[b p] id] eqn:Hn.
  specialize (Hid b p id eq_refl). split.
  - intros Hno. apply Hid in Hno. subst id.
    unfold_handler. answer Hn. answer Hv. reflexivity.
  - intros st' sent. unfold_handler. answer Hn. answer Hv.
    destruct (strlen id =? 0) eqn:Hlen.
    + intros _. apply Hid, strlen_zero, Hlen.
    + intros H. repeat case_match; simplify_eq.
Qed.

(** X10.  The order of the argument checks.  CreateVolume asks the driver
    first: a driver without the create/delete capability gets the driver's
    error whatever else is wrong with the request.  DeleteVolume looks at
    the volume ID first, and ValidateVolumeCapabilities at the volume ID
    before the capability list.  None of these refusals touches the store. *)
Theorem argument_check_order (st : S) :
  (forall (req : csi.CreateVolumeRequest) (e : error),
      ValidateControllerServiceRequest cs csi.RPC_CREATE_DELETE_VOLUME = Some e ->
      run (CreateVolume imp cs req) st = (st, [], Err e))
  /\ (forall req : csi.DeleteVolumeRequest,
         csi.DVolumeId req = EmptyString ->
         run (DeleteVolume imp cs req) st
         = (st, [], Err (StatusError InvalidArgument "Volume ID missing in request")))
  /\ (forall (req : csi.DeleteVolumeRequest) (e : error),
         csi.DVolumeId req <> EmptyString ->
         ValidateControllerServiceRequest cs csi.RPC_CREATE_DELETE_VOLUME = Some e ->
         run (DeleteVolume imp cs req) st = (st, [], Err e))
  /\ (forall req : csi.ValidateVolumeCapabilitiesRequest,
         csi.VVolumeId req = EmptyString ->
         run (ValidateVolumeCapabilities imp cs req) st
         = (st, [], Err (StatusError InvalidArgument "Volume ID missing in request"))).
Proof.
  split; [|split; [|split]].
  - intros req e Hv. destruct (createNames imp req) as [[b p] id] eqn:Hn.
    unfold_handler. answer Hn. answer Hv. reflexivity.
  - intros req Hid.
    destruct (volumeIDToBucketPrefix (csi.DVolumeId req)) as [b p] eqn:Hd.
    unfold_handler. answer Hd. rewrite Hid. reflexivity.
  - intros req e Hid Hv.
    destruct (volumeIDToBucketPrefix (csi.DVolumeId req)) as [b p] eqn:Hd.
    unfold_handler. answer Hd. rewrite (strlen_nonzero _ Hid). answer Hv.
    reflexivity.
  - intros req Hid. unfold_handler. rewrite Hid. reflexivity.
Qed.

(** X11.  A CreateVolume that succeeds has passed the driver's check, had a
    non-empty volume ID and a non-nil capability list.  Its last request to
    the store is the metadata write, the written record carries the
    request's mounter, and the answer is the volume ID together with the
    requested capacity and the request's parameters as the context. *)
Theorem CreateVolume_success (req : csi.CreateVolumeRequest)
    (st st' : S) (sent : list s3.Call) (resp : csi.CreateVolumeResponse) :
  run (CreateVolume imp cs req) st = (st', sent, Ok resp) ->
  ValidateControllerServiceRequest cs csi.RPC_CREATE_DELETE_VOLUME = None
  /\ (createNames imp req).2 <> EmptyString
  /\ csi.VolumeCapabilities req <> None
  /\ resp = createResponse (createNames imp req).2 req
  /\ exists (before : list s3.Call) (meta : s3.FSMeta),
       sent = before ++ [s3.CallSetFSMeta meta]
       /\ s3.Mounter meta = createMounter imp req.
Proof.
  destruct (createNames imp req) as [[b p] id] eqn:Hn. cbn [fst snd].
  unfold_handler. answer Hn.
  destruct (ValidateControllerServiceRequest cs csi.RPC_CREATE_DELETE_VOLUME);
    [discriminate|].
  destruct (strlen id =? 0) eqn:Hlen; [discriminate|].
  assert (Hid : id <> EmptyString).
  { intros ->. discriminate Hlen. }
  destruct (csi.VolumeCapabilities req) as [caps|]; [|discriminate].
  intros H. split; [reflexivity|]. split; [exact Hid|]. split; [discriminate|].
  repeat case_match; simplify_eq; cbn [store calls app];
    (split; [reflexivity|]).
  - eexists [_; _], _. split; reflexivity.
  - eexists [_; _], _. split; reflexivity.
  - eexists [_; _; _], _. split; reflexivity.
Qed.

(** X12.  A replay that finds its own record.  When the stored record
    already carries the request's mounter and at least the requested
    capacity, CreateVolume writes the stored record back unchanged (the
    [CreatedByCsi] flag included), creates nothing, and answers as the
    first call did. *)
Theorem CreateVolume_replay (req : csi.CreateVolumeRequest)
    (bucketName prefix volumeID : string) (client : s3.Client S)
    (st st1 st2 st3 : S) (meta : s3.FSMeta) (written : option error) :
  createNames imp req = (bucketName, prefix, volumeID) ->
  ValidateControllerServiceRequest cs csi.RPC_CREATE_DELETE_VOLUME = None ->
  volumeID <> EmptyString ->
  csi.VolumeCapabilities req <> None ->
  NewClientFromSecret imp (csi.Secrets req) = Ok client ->
  s3.BucketExists client bucketName st = (st1, Ok true) ->
  s3.GetFSMeta client bucketName prefix st1 = (st2, Ok meta) ->
  s3.Mounter meta = createMounter imp req ->
  createCapacity req <= s3.CapacityBytes meta ->
  s3.SetFSMeta client meta st2 = (st3, written) ->
  run (CreateVolume imp cs req) st
  = (st3,
     [s3.CallBucketExists bucketName; s3.CallGetFSMeta bucketName prefix;
      s3.CallSetFSMeta meta],
     match written with
     | None => Ok (createResponse volumeID req)
     | Some err => Err (WrapError ("error setting bucket metadata: " +:+ Error err) err)
     end).
Proof.
  intros Hn Hv Hid Hcaps Hcl Hbe Hgm Hm Hle Hset.
  unfold_handler. answer Hn. answer Hv. rewrite (strlen_nonzero _ Hid).
  destruct (csi.VolumeCapabilities req) as [caps|]; [|contradiction].
  answer Hcl. answer Hbe. answer Hgm.
  destruct (Z.gtb_spec (createCapacity req) (s3.CapacityBytes meta)); [lia|].
  cbn [store calls app].
  replace (s3.setMounter meta (createMounter imp req)) with meta
    by (rewrite <- Hm; destruct meta; reflexivity).
  answer Hset. destruct written; reflexivity.
Qed.

(** X13.  DeleteVolume needs the metadata: when the bucket exists and its
    metadata cannot be read, the call fails after the two reads, with an
    error that names the volume ID and drops the cause, and nothing is
    removed. *)
Theorem DeleteVolume_unreadable_metadata (req : csi.DeleteVolumeRequest)
    (bucketName prefix : string) (client : s3.Client S)
    (st st1 st2 : S) (e : error) :
  volumeIDToBucketPrefix (csi.DVolumeId req) = (bucketName, prefix) ->
  csi.DVolumeId req <> EmptyString ->
  ValidateControllerServiceRequest cs csi.RPC_CREATE_DELETE_VOLUME = None ->
  NewClientFromSecret imp (csi.DSecrets req) = Ok client ->
  s3.BucketExists client bucketName st = (st1, Ok true) ->
  s3.GetFSMeta client bucketName prefix st1 = (st2, Err e) ->
  run (DeleteVolume imp cs req) st
  = (st2, [s3.CallBucketExists bucketName; s3.CallGetFSMeta bucketName prefix],
     Err (PlainError ("failed to get metadata of buckect " +:+ csi.DVolumeId req))).
Proof.
  intros Hd Hid Hv Hcl Hbe Hgm. unfold_handler. answer Hd.
  rewrite (strlen_nonzero _ Hid). answer Hv. answer Hcl. answer Hbe. answer Hgm.
  reflexivity.
Qed.

(** X14.  When removing a non-empty prefix fails, DeleteVolume stops with
    the wrapped error: the bucket is not removed even if its metadata says
    [CreatedByCsi]. *)
Theorem DeleteVolume_prefix_failure (req : csi.DeleteVolumeRequest)
    (bucketName prefix : string) (client : s3.Client S)
    (st st1 st2 st3 : S) (meta : s3.FSMeta) (e : error) :
  volumeIDToBucketPrefix (csi.DVolumeId req) = (bucketName, prefix) ->
  prefix <> EmptyString ->
  ValidateControllerServiceRequest cs csi.RPC_CREATE_DELETE_VOLUME = None ->
  NewClientFromSecret imp (csi.DSecrets req) = Ok client ->
  s3.BucketExists client bucketName st = (st1, Ok true) ->
  s3.GetFSMeta client bucketName prefix st1 = (st2, Ok meta) ->
  s3.RemovePrefix client bucketName prefix st2 = (st3, Some e) ->
  run (DeleteVolume imp cs req) st
  = (st3,
     [s3.CallBucketExists bucketName; s3.CallGetFSMeta bucketName prefix;
      s3.CallRemovePrefix bucketName prefix],
     Err (WrapError ("unable to remove prefix: " +:+ Error e) e)).
Proof.
  intros Hd Hp Hv Hcl Hbe Hgm Hrp.
  assert (Hid : csi.DVolumeId req <> EmptyString).
  { intros Hnil. rewrite Hnil in Hd. inversion Hd. congruence. }
  rewrite (DeleteVolume_existing_run imp cs req _ _ _ _ _ _ _ Hd Hid Hv Hcl Hbe Hgm).
  unfold prefixCalls. apply String.eqb_neq in Hp. rewrite Hp, Hrp. reflexivity.
Qed.

(** X15.  Whatever the request, the client and the store, every request
    DeleteVolume sends is an existence check, a metadata read or a removal
    for the bucket and prefix decoded from the volume ID: it never creates
    a bucket or a path and never writes metadata. *)
Theorem DeleteVolume_sends_no_write (req : csi.DeleteVolumeRequest) (st : S) :
  let sent := (run (DeleteVolume imp cs req) st).1.2 in
  forallb (deleteCall (volumeIDToBucketPrefix (csi.DVolumeId req)).1
                      (volumeIDToBucketPrefix (csi.DVolumeId req)).2) sent = true.
Proof.
  destruct (volumeIDToBucketPrefix (csi.DVolumeId req)) as [b p] eqn:Hd.
  cbn [fst snd]. unfold_handler. answer Hd.
  repeat case_match; simplify_eq; cbn [fst snd store calls app];
    cbn [forallb deleteCall]; rewrite ?String.eqb_refl; reflexivity.
Qed.

(** X16.  ValidateVolumeCapabilities only reads: whatever the request, the
    client and the store, it sends at most the existence check and the
    metadata read, both for the bucket and prefix decoded from the volume
    ID, and never a request that changes the store. *)
Theorem ValidateVolumeCapabilities_read_only
    (req : csi.ValidateVolumeCapabilitiesRequest) (st : S) :
  let sent := (run (ValidateVolumeCapabilities imp cs req) st).1.2 in
  let b := (volumeIDToBucketPrefix (csi.VVolumeId req)).1 in
  let p := (volumeIDToBucketPrefix (csi.VVolumeId req)).2 in
  forallb (fun c => negb (s3.mutating c)) sent = true
  /\ (sent = [] \/ sent = [s3.CallBucketExists b]
      \/ sent = [s3.CallBucketExists b; s3.CallGetFSMeta b p]).
Proof.
  destruct (volumeIDToBucketPrefix (csi.VVolumeId req)) as [b p] eqn:Hd.
  cbn [fst snd]. unfold_handler. rewrite ?Hd.
  repeat case_match; simplify_eq; cbn [fst snd store calls app];
    (split; [reflexivity|]); auto.
Qed.

(** X17.  A nil capability pointer, or a capability without an access mode,
    reads as the mode UNKNOWN: on an existing volume with readable metadata
    a list containing one is answered with the unconfirmed response, not
    with an error. *)
Theorem ValidateVolumeCapabilities_nil_capability
    (req : csi.ValidateVolumeCapabilitiesRequest) (bucketName prefix : string)
    (caps : list (option csi.VolumeCapability)) (client : s3.Client S)
    (st st1 st2 : S) (meta : s3.FSMeta) :
  volumeIDToBucketPrefix (csi.VVolumeId req) = (bucketName, prefix) ->
  csi.VVolumeId req <> EmptyString ->
  csi.VVolumeCapabilities req = Some caps ->
  NewClientFromSecret imp (csi.VSecrets req) = Ok client ->
  s3.BucketExists client bucketName st = (st1, Ok true) ->
  s3.GetFSMeta client bucketName prefix st1 = (st2, Ok meta) ->
  In None caps \/ In (Some (csi.mkVolumeCapability None)) caps ->
  run (ValidateVolumeCapabilities imp cs req) st
  = (st2, [s3.CallBucketExists bucketName; s3.CallGetFSMeta bucketName prefix],
     Ok (csi.mkValidateResponse None "Only single node writer is supported")).
Proof.
  intros Hd Hid Hcaps Hcl Hbe Hgm Hnil.
  assert (Hall : forallb isSingleNodeWriter caps = false).
  { destruct (forallb isSingleNodeWriter caps) eqn:E; [|reflexivity].
    rewrite forallb_forall in E.
    destruct Hnil as [Hin|Hin]; apply E in Hin; discriminate Hin. }
  unfold_handler. rewrite (strlen_nonzero _ Hid), Hcaps. answer Hd.
  answer Hcl. answer Hbe. answer Hgm.
  rewrite rejectUnsupported_forallb, Hall. reflexivity.
Qed.

(** X18.  When the client cannot be made from the secrets, each of the three
    handlers (its argument checks passed) fails with the same plain error,
    "failed to initialize S3 client: " followed by the cause, and sends
    nothing to the store. *)
Theorem client_construction_failure (st : S) (e : error) :
  let failed := PlainError ("failed to initialize S3 client: " +:+ Error e) in
  (forall req : csi.CreateVolumeRequest,
      ValidateControllerServiceRequest cs csi.RPC_CREATE_DELETE_VOLUME = None ->
      (createNames imp req).2 <> EmptyString ->
      csi.VolumeCapabilities req <> None ->
      NewClientFromSecret imp (csi.Secrets req) = Err e ->
      run (CreateVolume imp cs req) st = (st, [], Err failed))
  /\ (forall req : csi.DeleteVolumeRequest,
         csi.DVolumeId req <> EmptyString ->
         ValidateControllerServiceRequest cs csi.RPC_CREATE_DELETE_VOLUME = None ->
         NewClientFromSecret imp (csi.DSecrets req) = Err e ->
         run (DeleteVolume imp cs req) st = (st, [], Err failed))
  /\ (forall req : csi.ValidateVolumeCapabilitiesRequest,
         csi.VVolumeId req <> EmptyString ->
         csi.VVolumeCapabilities req <> None ->
         NewClientFromSecret imp (csi.VSecrets req) = Err e ->
         run (ValidateVolumeCapabilities imp cs req) st = (st, [], Err failed)).
Proof.
  intros failed. split; [|split].
  - intros req Hv Hid Hcaps Hcl.
    destruct (createNames imp req) as [[b p] id] eqn:Hn. cbn [snd] in Hid.
    unfold_handler. answer Hn. answer Hv. rewrite (strlen_nonzero _ Hid).
    destruct (csi.VolumeCapabilities req) as [caps|]; [|contradiction].
    answer Hcl. reflexivity.
  - intros req Hid Hv Hcl.
    destruct (volumeIDToBucketPrefix (csi.DVolumeId req)) as [b p] eqn:Hd.
    unfold_handler. answer Hd. rewrite (strlen_nonzero _ Hid). answer Hv.
    answer Hcl. reflexivity.
  - intros req Hid Hcaps Hcl.
    destruct (volumeIDToBucketPrefix (csi.VVolumeId req)) as [b p] eqn:Hd.
    unfold_handler. rewrite (strlen_nonzero _ Hid).
    destruct (csi.VVolumeCapabilities req) as [caps|]; [|contradiction].
    answer Hd. answer Hcl. reflexivity.
Qed.

(** X19.  When the existence check itself fails, every handler stops right
    after it.  CreateVolume answers with a plain error that names the
    volume ID (not the bucket) and the cause; DeleteVolume and
    ValidateVolumeCapabilities hand the client's error on as it is. *)
Theorem existence_check_failure (client : s3.Client S) (st st1 : S) (e : error) :
  (forall (req : csi.CreateVolumeRequest) (bucketName prefix volumeID : string),
      createNames imp req = (bucketName, prefix, volumeID) ->
      ValidateControllerServiceRequest cs csi.RPC_CREATE_DELETE_VOLUME = None ->
      volumeID <> EmptyString ->
      csi.VolumeCapabilities req <> None ->
      NewClientFromSecret imp (csi.Secrets req) = Ok client ->
      s3.BucketExists client bucketName st = (st1, Err e) ->
      run (CreateVolume imp cs req) st
      = (st1, [s3.CallBucketExists bucketName],
         Err (PlainError ("failed to check if bucket " +:+ volumeID
                          +:+ " exists: " +:+ Error e))))
  /\ (forall (req : csi.DeleteVolumeRequest) (bucketName prefix : string),
         volumeIDToBucketPrefix (csi.DVolumeId req) = (bucketName, prefix) ->
         csi.DVolumeId req <> EmptyString ->
         ValidateControllerServiceRequest cs csi.RPC_CREATE_DELETE_VOLUME = None ->
         NewClientFromSecret imp (csi.DSecrets req) = Ok client ->
         s3.BucketExists client bucketName st = (st1, Err e) ->
         run (DeleteVolume imp cs req) st
         = (st1, [s3.CallBucketExists bucketName], Err e))
  /\ (forall (req : csi.ValidateVolumeCapabilitiesRequest) (bucketName prefix : string),
         volumeIDToBucketPrefix (csi.VVolumeId req) = (bucketName, prefix) ->
         csi.VVolumeId req <> EmptyString ->
         csi.VVolumeCapabilities req <> None ->
         NewClientFromSecret imp (csi.VSecrets req) = Ok client ->
         s3.BucketExists client bucketName st = (st1, Err e) ->
         run (ValidateVolumeCapabilities imp cs req) st
         = (st1, [s3.CallBucketExists bucketName], Err e)).
Proof.
  split; [|split].
  - intros req b p id Hn Hv Hid Hcaps Hcl Hbe.
    unfold_handler. answer Hn. answer Hv. rewrite (strlen_nonzero _ Hid).
    destruct (csi.VolumeCapabilities req) as [caps|]; [|contradiction].
    answer Hcl. answer Hbe. reflexivity.
  - intros req b p Hd Hid Hv Hcl Hbe.
    unfold_handler. answer Hd. rewrite (strlen_nonzero _ Hid). answer Hv.
    answer Hcl. answer Hbe. reflexivity.
  - intros req b p Hd Hid Hcaps Hcl Hbe.
    unfold_handler. rewrite (strlen_nonzero _ Hid).
    destruct (csi.VVolumeCapabilities req) as [caps|]; [|contradiction].
    answer Hd. answer Hcl. answer Hbe. reflexivity.
Qed.

End HandlerFacts.

(** ** The handlers on the in-memory store *)

Section StoreFacts.

Context (name : string) (range : option csi.CapacityRange)
        (caps : list (option csi.VolumeCapability))
        (params secrets : gmap string string).

(** CreateVolume without a bucket override on a store that lacks the
    bucket. *)
Lemma MemS3_create_fresh (st : gmap string MemS3.Bucket) :
  let req := csi.mkCreateVolumeRequest name range (Some caps) params secrets in
  let id := sanitizeVolumeID MemS3.imports name in
  let fresh := s3.mkFSMeta id "" (createMounter MemS3.imports req)
                 (createCapacity req) "csi-fs" true in
  params !! "bucket" = None ->
  id <> EmptyString ->
  st !! id = None ->
  run (CreateVolume MemS3.imports MemS3.server req) st
  = (<[id := MemS3.mkBucket {["" := fresh]} ["csi-fs/"]]> st,
     [s3.CallBucketExists id; s3.CallCreateBucket id;
      s3.CallCreatePrefix id "csi-fs"; s3.CallSetFSMeta fresh],
     Ok (createResponse id req)).
Proof.
  intros req id fresh Hp Hid Hst.
  assert (Hn : createNames MemS3.imports req = (id, EmptyString, id)).
  { unfold createNames. cbn [csi.Parameters req BucketKey MemS3.imports].
    change (BucketKey MemS3.imports) with "bucket". rewrite Hp. reflexivity. }
  unfold_handler. answer Hn. cbn [ValidateControllerServiceRequest MemS3.server].
  rewrite (strlen_nonzero _ Hid).
  cbn [csi.VolumeCapabilities req NewClientFromSecret MemS3.imports
       s3.BucketExists s3.CreateBucket s3.CreatePrefix s3.SetFSMeta MemS3.client].
  unfold MemS3.BucketExists. cbn [store calls app negb]. rewrite Hst.
  unfold MemS3.CreateBucket. cbn [store calls app negb]. rewrite Hst.
  change (Join [""; defaultFsPath]) with "csi-fs".
  unfold MemS3.CreatePrefix. cbn [store calls app negb].
  rewrite lookup_insert_eq. cbn [store calls app negb].
  unfold MemS3.SetFSMeta. cbn [s3.BucketName s3.Prefix store calls app negb].
  rewrite lookup_insert_eq. cbn [store calls app negb fst snd MemS3.metas MemS3.objects].
  rewrite !insert_insert_eq. reflexivity.
Qed.

(** X20.  On the in-memory store (modelled from the collaborator interface
    of the spec), CreateVolume is idempotent: without a bucket override and
    on a store that lacks the bucket, the first call creates the bucket,
    the reserved path and the record; the same request sent again succeeds
    with the same answer, creates nothing, and leaves the store as the
    first call left it. *)
Theorem CreateVolume_twice (st : gmap string MemS3.Bucket) :
  let req := csi.mkCreateVolumeRequest name range (Some caps) params secrets in
  let id := sanitizeVolumeID MemS3.imports name in
  let fresh := s3.mkFSMeta id "" (createMounter MemS3.imports req)
                 (createCapacity req) "csi-fs" true in
  params !! "bucket" = None ->
  id <> EmptyString ->
  st !! id = None ->
  let st1 := <[id := MemS3.mkBucket {["" := fresh]} ["csi-fs/"]]> st in
  run (CreateVolume MemS3.imports MemS3.server req) st
  = (st1,
     [s3.CallBucketExists id; s3.CallCreateBucket id;
      s3.CallCreatePrefix id "csi-fs"; s3.CallSetFSMeta fresh],
     Ok (createResponse id req))
  /\ run (CreateVolume MemS3.imports MemS3.server req) st1
     = (st1,
        [s3.CallBucketExists id; s3.CallGetFSMeta id ""; s3.CallSetFSMeta fresh],
        Ok (createResponse id req)).
Proof.
  intros req id fresh Hp Hid Hst st1.
  split; [apply MemS3_create_fresh; assumption|].
  assert (Hn : createNames MemS3.imports req = (id, EmptyString, id)).
  { unfold createNames. cbn [csi.Parameters req BucketKey MemS3.imports].
    change (BucketKey MemS3.imports) with "bucket". rewrite Hp. reflexivity. }
  unfold_handler. answer Hn. cbn [ValidateControllerServiceRequest MemS3.server].
  rewrite (strlen_nonzero _ Hid).
  cbn [csi.VolumeCapabilities req NewClientFromSecret MemS3.imports
       s3.BucketExists s3.GetFSMeta s3.SetFSMeta MemS3.client].
  unfold MemS3.BucketExists. cbn [store calls app negb].
  unfold st1 at 1. rewrite lookup_insert_eq.
  unfold MemS3.GetFSMeta. cbn [store calls app negb].
  unfold st1 at 1. rewrite lookup_insert_eq. cbn [MemS3.metas].
  rewrite lookup_singleton_eq. cbn [store calls app negb].
  replace (createCapacity req >? s3.CapacityBytes fresh) with false
    by (symmetry; unfold fresh; cbn [s3.CapacityBytes];
        rewrite Z.gtb_ltb; apply Z.ltb_irrefl).
  cbn [store calls app negb].
  change (s3.setMounter fresh (createMounter MemS3.imports req)) with fresh.
  unfold MemS3.SetFSMeta. unfold fresh at 1 3. cbn [s3.BucketName s3.Prefix].
  fold fresh. unfold st1 at 1. rewrite lookup_insert_eq.
  cbn [MemS3.metas MemS3.objects store calls app negb fst snd].
  unfold st1. rewrite !insert_insert_eq. reflexivity.
Qed.

(** X21.  On the in-memory store, deleting what was created restores the
    store: a volume created without a bucket override on a store that
    lacked the bucket, whose identifier has no slash, is removed again by
    DeleteVolume of the volume ID that CreateVolume answered with, and the
    store is then exactly what it was before the creation. *)
Theorem create_then_delete (secrets' : gmap string string)
    (st : gmap string MemS3.Bucket) :
  let req := csi.mkCreateVolumeRequest name range (Some caps) params secrets in
  let id := sanitizeVolumeID MemS3.imports name in
  let fresh := s3.mkFSMeta id "" (createMounter MemS3.imports req)
                 (createCapacity req) "csi-fs" true in
  params !! "bucket" = None ->
  id <> EmptyString ->
  containsSlash id = false ->
  st !! id = None ->
  exists (st1 : gmap string MemS3.Bucket) (sent : list s3.Call) (vol : csi.Volume),
    run (CreateVolume MemS3.imports MemS3.server req) st
    = (st1, sent, Ok (csi.mkCreateVolumeResponse (Some vol)))
    /\ st1 !! id <> None
    /\ run (DeleteVolume MemS3.imports MemS3.server
              (csi.mkDeleteVolumeRequest (csi.VolumeId vol) secrets')) st1
       = (st,
          [s3.CallBucketExists id; s3.CallGetFSMeta id ""; s3.CallRemoveBucket id],
          Ok csi.mkDeleteVolumeResponse).
Proof.
  intros req id fresh Hp Hid Hslash Hst.
  exists (<[id := MemS3.mkBucket {["" := fresh]} ["csi-fs/"]]> st),
         [s3.CallBucketExists id; s3.CallCreateBucket id;
          s3.CallCreatePrefix id "csi-fs"; s3.CallSetFSMeta fresh],
         (csi.mkVolume id (createCapacity req) (csi.Parameters req)).
  split; [exact (MemS3_create_fresh st Hp Hid Hst)|].
  split; [rewrite lookup_insert_eq; discriminate|].
  cbn [csi.VolumeId]. unfold_handler.
  cbn [csi.DVolumeId csi.DSecrets].
  rewrite (volumeIDToBucketPrefix_no_slash _ Hslash), (strlen_nonzero _ Hid).
  cbn [ValidateControllerServiceRequest MemS3.server NewClientFromSecret
       MemS3.imports s3.BucketExists s3.GetFSMeta s3.RemoveBucket MemS3.client].
  unfold MemS3.BucketExists. cbn [store calls app negb].
  rewrite lookup_insert_eq.
  unfold MemS3.GetFSMeta. cbn [store calls app negb].
  rewrite lookup_insert_eq. cbn [MemS3.metas].
  rewrite lookup_singleton_eq. cbn [store calls app negb String.eqb].
  unfold fresh at 1. cbn [s3.CreatedByCsi].
  unfold MemS3.RemoveBucket. cbn [store calls app negb].
  rewrite lookup_insert_eq. cbn [store calls app negb fst snd].
  rewrite delete_insert_eq, (delete_id _ _ Hst). reflexivity.
Qed.

End StoreFacts.

(** ** The further properties at work *)

Section Runs.

Import Examples.

Ltac evaluate_nat := vm_compute; lia.

Lemma sanitizeVolumeID_idempotent_witness :
  allASCII "My-Volume" = true
  /\ sanitizeVolumeID MemS3.imports (sanitizeVolumeID MemS3.imports "My-Volume")
     = sanitizeVolumeID MemS3.imports "My-Volume"
  /\ sanitizeVolumeID MemS3.imports (sanitizeVolumeID MemS3.imports longName)
     = sanitizeVolumeID MemS3.imports longName.
Proof.
  split; [evaluate|split]; apply sanitizeVolumeID_idempotent; evaluate.
Defined.

Lemma sanitizeVolumeID_long_name_witness :
  (63 < String.length (ToLower (unicodeLower MemS3.imports) longName))%nat
  /\ String.length (sanitizeVolumeID MemS3.imports longName) = 40%nat
  /\ volumeIDToBucketPrefix (sanitizeVolumeID MemS3.imports longName)
     = (sanitizeVolumeID MemS3.imports longName, EmptyString)
  /\ sanitizeVolumeID MemS3.imports (sanitizeVolumeID MemS3.imports longName)
     = sanitizeVolumeID MemS3.imports longName.
Proof.
  assert (Hlong : (63 < String.length (ToLower (unicodeLower MemS3.imports) longName))%nat)
    by evaluate_nat.
  split; [exact Hlong|].
  destruct (sanitizeVolumeID_long_name MemS3.imports longName Hlong)
    as (Hlen & _ & Hdec & Hfix).
  split; [exact Hlen|]. split; [exact Hdec|exact Hfix].
Defined.

Lemma volumeIDToBucketPrefix_shape_witness :
  containsSlash "bucket/pre/fix" = true
  /\ containsSlash (volumeIDToBucketPrefix "bucket/pre/fix").2 = false
  /\ (volumeIDToBucketPrefix "bucket/pre/fix").1 <> "bucket/pre/fix"
  /\ exists rest : string,
       "bucket/pre/fix" = (volumeIDToBucketPrefix "bucket/pre/fix").1 +:+ String "/" rest.
Proof.
  destruct (volumeIDToBucketPrefix_shape "bucket/pre/fix") as (_ & Hp & Hiff & Hrest).
  split; [evaluate|]. split; [exact Hp|]. split.
  - intros Heq. apply Hiff in Heq. discriminate Heq.
  - apply Hrest. evaluate.
Defined.

Lemma createNames_decode_witness :
  createNames MemS3.imports sharedReq = ("bucket", "vol", "bucket/vol")
  /\ volumeIDToBucketPrefix "bucket/vol" = ("bucket", "vol").
Proof.
  split; [evaluate|].
  apply (createNames_decode MemS3.imports sharedReq); evaluate.
Defined.

(** The first CreateVolume for ["My-Volume"] on the empty store. *)
Lemma CreateVolume_new_bucket_witness :
  run (CreateVolume MemS3.imports MemS3.server (createReq 1024 (Some [writer])))
      emptyStore
  = (madeStore,
     [s3.CallBucketExists "my-volume"; s3.CallCreateBucket "my-volume";
      s3.CallCreatePrefix "my-volume" "csi-fs";
      s3.CallSetFSMeta (s3.mkFSMeta "my-volume" "" "rclone" 1024 "csi-fs" true)],
     Ok (csi.mkCreateVolumeResponse
           (Some (csi.mkVolume "my-volume" 1024 rcloneParams)))).
Proof.
  rewrite (CreateVolume_new_bucket MemS3.imports MemS3.server
             (createReq 1024 (Some [writer])) "my-volume" "" "my-volume"
             MemS3.client emptyStore emptyStore halfMadeStore pathMadeStore
             madeStore None
             ltac:(evaluate) ltac:(evaluate) ltac:(evaluate) ltac:(evaluate)
             ltac:(evaluate) ltac:(evaluate) ltac:(evaluate) ltac:(evaluate)
             ltac:(evaluate)).
  evaluate.
Defined.

(** A store that refuses to create the bucket, and one that refuses to
    create the reserved path: the new bucket stays behind, empty. *)
Lemma CreateVolume_creation_failure_witness :
  run (CreateVolume (faultyImports noCreateBucket) MemS3.server
         (createReq 1024 (Some [writer]))) emptyStore
  = (emptyStore,
     [s3.CallBucketExists "my-volume"; s3.CallCreateBucket "my-volume"],
     Err (PlainError "failed to create bucket my-volume: Access Denied."))
  /\ run (CreateVolume (faultyImports noCreatePrefix) MemS3.server
            (createReq 1024 (Some [writer]))) emptyStore
     = (halfMadeStore,
        [s3.CallBucketExists "my-volume"; s3.CallCreateBucket "my-volume";
         s3.CallCreatePrefix "my-volume" "csi-fs"],
        Err (PlainError "failed to create prefix csi-fs: Access Denied.")).
Proof.
  split.
  - destruct (CreateVolume_creation_failure (faultyImports noCreateBucket) MemS3.server
                (createReq 1024 (Some [writer])) "my-volume" "" "my-volume"
                (MemS3.faulty noCreateBucket) emptyStore emptyStore emptyStore denied)
      as (H & _); [evaluate..|].
    rewrite (H ltac:(evaluate)). evaluate.
  - destruct (CreateVolume_creation_failure (faultyImports noCreatePrefix) MemS3.server
                (createReq 1024 (Some [writer])) "my-volume" "" "my-volume"
                (MemS3.faulty noCreatePrefix) emptyStore emptyStore halfMadeStore denied)
      as (_ & H); [evaluate..|].
    rewrite (H ltac:(evaluate) halfMadeStore ltac:(evaluate)). evaluate.
Defined.

(** An empty name without a bucket override is refused; with the override
    ["bucket"] the same empty name is not. *)
Lemma CreateVolume_name_missing_witness :
  run (CreateVolume MemS3.imports MemS3.server (namelessReq noParams)) emptyStore
  = (emptyStore, [], Err (StatusError InvalidArgument "Name missing in request"))
  /\ run (CreateVolume MemS3.imports MemS3.server (namelessReq bucketOnly)) emptyStore
     <> (emptyStore, [], Err (StatusError InvalidArgument "Name missing in request")).
Proof.
  split.
  - destruct (CreateVolume_name_missing MemS3.imports MemS3.server
                (namelessReq noParams) emptyStore) as (H & _); [evaluate|].
    apply H. split; evaluate.
  - destruct (CreateVolume_name_missing MemS3.imports MemS3.server
                (namelessReq bucketOnly) emptyStore) as (_ & H); [evaluate|].
    intros Hrun. destruct (H _ _ Hrun) as [_ Hover]. vm_compute in Hover.
    discriminate Hover.
Defined.

(** A driver without capabilities: CreateVolume reports the driver's error
    for a request that also lacks the capability list; DeleteVolume looks
    at the volume ID first. *)
Lemma argument_check_order_witness :
  run (CreateVolume MemS3.imports MemS3.bareServer (createReq 1024 None)) emptyStore
  = (emptyStore, [], Err (StatusError InvalidArgument "CREATE_DELETE_VOLUME"))
  /\ run (DeleteVolume MemS3.imports MemS3.bareServer (deleteReq "")) emptyStore
     = (emptyStore, [], Err (StatusError InvalidArgument "Volume ID missing in request"))
  /\ run (DeleteVolume MemS3.imports MemS3.bareServer (deleteReq "my-volume")) emptyStore
     = (emptyStore, [], Err (StatusError InvalidArgument "CREATE_DELETE_VOLUME"))
  /\ run (ValidateVolumeCapabilities MemS3.imports MemS3.bareServer
            (validateReq "" None)) emptyStore
     = (emptyStore, [], Err (StatusError InvalidArgument "Volume ID missing in request")).
Proof.
  destruct (argument_check_order MemS3.imports MemS3.bareServer emptyStore)
    as (H1 & H2 & H3 & H4).
  split; [|split; [|split]].
  - apply H1. evaluate.
  - apply H2. evaluate.
  - apply H3; evaluate.
  - apply H4. evaluate.
Defined.

(** The successful replay for 1 KiB ends with the metadata write. *)
Lemma CreateVolume_success_witness :
  ValidateControllerServiceRequest MemS3.server csi.RPC_CREATE_DELETE_VOLUME = None
  /\ exists (before : list s3.Call) (meta : s3.FSMeta),
       [s3.CallBucketExists "my-volume"; s3.CallGetFSMeta "my-volume" "";
        s3.CallSetFSMeta (s3.mkFSMeta "my-volume" "" "rclone" 1073741824 "csi-fs" true)]
       = before ++ [s3.CallSetFSMeta meta]
       /\ s3.Mounter meta = createMounter MemS3.imports (createReq 1024 (Some [writer])).
Proof.
  destruct (CreateVolume_success MemS3.imports MemS3.server
              (createReq 1024 (Some [writer])) (ownStore true) ownStoreRclone
              [s3.CallBucketExists "my-volume"; s3.CallGetFSMeta "my-volume" "";
               s3.CallSetFSMeta
                 (s3.mkFSMeta "my-volume" "" "rclone" 1073741824 "csi-fs" true)]
              (createResponse "my-volume" (createReq 1024 (Some [writer])))
              ltac:(evaluate))
    as (Hv & _ & _ & _ & Hlast).
  split; [exact Hv|exact Hlast].
Defined.

(** The record with the mounter ["rclone"] is written back as it is. *)
Lemma CreateVolume_replay_witness :
  run (CreateVolume MemS3.imports MemS3.server (createReq 1024 (Some [writer])))
      ownStoreRclone
  = (ownStoreRclone,
     [s3.CallBucketExists "my-volume"; s3.CallGetFSMeta "my-volume" "";
      s3.CallSetFSMeta (s3.mkFSMeta "my-volume" "" "rclone" 1073741824 "csi-fs" true)],
     Ok (csi.mkCreateVolumeResponse
           (Some (csi.mkVolume "my-volume" 1024 rcloneParams)))).
Proof.
  rewrite (CreateVolume_replay MemS3.imports MemS3.server
             (createReq 1024 (Some [writer])) "my-volume" "" "my-volume"
             MemS3.client ownStoreRclone ownStoreRclone ownStoreRclone ownStoreRclone
             (s3.mkFSMeta "my-volume" "" "rclone" 1073741824 "csi-fs" true) None
             ltac:(evaluate) ltac:(evaluate) ltac:(evaluate) ltac:(evaluate)
             ltac:(evaluate) ltac:(evaluate) ltac:(evaluate) ltac:(evaluate)
             ltac:(evaluate) ltac:(evaluate)).
  evaluate.
Defined.

(** A bucket without a metadata record cannot be deleted. *)
Lemma DeleteVolume_unreadable_metadata_witness :
  run (DeleteVolume MemS3.imports MemS3.server (deleteReq "my-volume")) bareStore
  = (bareStore,
     [s3.CallBucketExists "my-volume"; s3.CallGetFSMeta "my-volume" ""],
     Err (PlainError "failed to get metadata of buckect my-volume")).
Proof.
  rewrite (DeleteVolume_unreadable_metadata MemS3.imports MemS3.server
             (deleteReq "my-volume") "my-volume" "" MemS3.client
             bareStore bareStore bareStore
             (PlainError "The specified key does not exist.")
             ltac:(evaluate) ltac:(evaluate) ltac:(evaluate) ltac:(evaluate)
             ltac:(evaluate) ltac:(evaluate)).
  evaluate.
Defined.

(** The prefix cannot be removed: the bucket created by the driver stays. *)
Lemma DeleteVolume_prefix_failure_witness :
  run (DeleteVolume (faultyImports noRemovePrefix) MemS3.server (deleteReq "bucket/vol"))
      (sharedStore true)
  = (sharedStore true,
     [s3.CallBucketExists "bucket"; s3.CallGetFSMeta "bucket" "vol";
      s3.CallRemovePrefix "bucket" "vol"],
     Err (WrapError "unable to remove prefix: Access Denied." denied)).
Proof.
  rewrite (DeleteVolume_prefix_failure (faultyImports noRemovePrefix) MemS3.server
             (deleteReq "bucket/vol") "bucket" "vol" (MemS3.faulty noRemovePrefix)
             (sharedStore true) (sharedStore true) (sharedStore true) (sharedStore true)
             (sharedMeta true) denied
             ltac:(evaluate) ltac:(evaluate) ltac:(evaluate) ltac:(evaluate)
             ltac:(evaluate) ltac:(evaluate) ltac:(evaluate)).
  evaluate.
Defined.

(** A nil pointer after a supported capability. *)
Lemma ValidateVolumeCapabilities_nil_capability_witness :
  run (ValidateVolumeCapabilities MemS3.imports MemS3.server
         (validateReq "my-volume" (Some [writer; None]))) (ownStore true)
  = (ownStore true,
     [s3.CallBucketExists "my-volume"; s3.CallGetFSMeta "my-volume" ""],
     Ok unsupportedResponse).
Proof.
  rewrite (ValidateVolumeCapabilities_nil_capability MemS3.imports MemS3.server
             (validateReq "my-volume" (Some [writer; None])) "my-volume" ""
             [writer; None] MemS3.client (ownStore true) (ownStore true) (ownStore true)
             (ownMeta true)
             ltac:(evaluate) ltac:(evaluate) ltac:(evaluate) ltac:(evaluate)
             ltac:(evaluate) ltac:(evaluate) ltac:(left; right; left; reflexivity)).
  evaluate.
Defined.

Lemma client_construction_failure_witness :
  let failed := PlainError "failed to initialize S3 client: missing credentials" in
  run (CreateVolume lockedImports MemS3.server (createReq 1024 (Some [writer])))
      (ownStore true)
  = (ownStore true, [], Err failed)
  /\ run (DeleteVolume lockedImports MemS3.server (deleteReq "my-volume")) (ownStore true)
     = (ownStore true, [], Err failed)
  /\ run (ValidateVolumeCapabilities lockedImports MemS3.server
            (validateReq "my-volume" (Some [writer]))) (ownStore true)
     = (ownStore true, [], Err failed).
Proof.
  destruct (client_construction_failure lockedImports MemS3.server (ownStore true)
              (PlainError "missing credentials")) as (H1 & H2 & H3).
  split; [|split].
  - apply H1; evaluate.
  - apply H2; evaluate.
  - apply H3; evaluate.
Defined.

Lemma existence_check_failure_witness :
  run (CreateVolume (faultyImports noBucketExists) MemS3.server sharedReq)
      (sharedStore true)
  = (sharedStore true, [s3.CallBucketExists "bucket"],
     Err (PlainError "failed to check if bucket bucket/vol exists: Access Denied."))
  /\ run (DeleteVolume (faultyImports noBucketExists) MemS3.server
            (deleteReq "bucket/vol")) (sharedStore true)
     = (sharedStore true, [s3.CallBucketExists "bucket"], Err denied)
  /\ run (ValidateVolumeCapabilities (faultyImports noBucketExists) MemS3.server
            (validateReq "bucket/vol" (Some [writer]))) (sharedStore true)
     = (sharedStore true, [s3.CallBucketExists "bucket"], Err denied).
Proof.
  destruct (existence_check_failure (faultyImports noBucketExists) MemS3.server
              (MemS3.faulty noBucketExists) (sharedStore true) (sharedStore true) denied)
    as (H1 & H2 & H3).
  split; [|split].
  - rewrite (H1 sharedReq "bucket" "vol" "bucket/vol"
               ltac:(evaluate) ltac:(evaluate) ltac:(evaluate) ltac:(evaluate)
               ltac:(evaluate) ltac:(evaluate)).
    evaluate.
  - apply (H2 _ "bucket" "vol"); evaluate.
  - apply (H3 _ "bucket" "vol"); evaluate.
Defined.

(** ["My-Volume"] created twice, and created and deleted, on the empty
    store. *)
Lemma CreateVolume_twice_witness :
  run (CreateVolume MemS3.imports MemS3.server
         (csi.mkCreateVolumeRequest "My-Volume" (Some (csi.mkCapacityRange 1024 0))
            (Some [writer]) rcloneParams noSecrets)) madeStore
  = (madeStore,
     [s3.CallBucketExists "my-volume"; s3.CallGetFSMeta "my-volume" "";
      s3.CallSetFSMeta (s3.mkFSMeta "my-volume" "" "rclone" 1024 "csi-fs" true)],
     Ok (csi.mkCreateVolumeResponse
           (Some (csi.mkVolume "my-volume" 1024 rcloneParams)))).
Proof.
  pose proof (CreateVolume_twice "My-Volume" (Some (csi.mkCapacityRange 1024 0))
                [writer] rcloneParams noSecrets emptyStore
                ltac:(evaluate) ltac:(evaluate) ltac:(evaluate)) as H.
  cbv zeta in H. destruct H as (_ & H).
  change madeStore
    with (<[sanitizeVolumeID MemS3.imports "My-Volume" :=
              MemS3.mkBucket
                {["" := s3.mkFSMeta (sanitizeVolumeID MemS3.imports "My-Volume") ""
                          (createMounter MemS3.imports
                             (csi.mkCreateVolumeRequest "My-Volume"
                                (Some (csi.mkCapacityRange 1024 0))
                                (Some [writer]) rcloneParams noSecrets))
                          (createCapacity
                             (csi.mkCreateVolumeRequest "My-Volume"
                                (Some (csi.mkCapacityRange 1024 0))
                                (Some [writer]) rcloneParams noSecrets))
                          "csi-fs" true]}
                ["csi-fs/"]]> emptyStore) at 1.
  rewrite H. evaluate.
Defined.

Lemma create_then_delete_witness :
  exists (st1 : gmap string MemS3.Bucket) (sent : list s3.Call) (vol : csi.Volume),
    run (CreateVolume MemS3.imports MemS3.server
           (csi.mkCreateVolumeRequest "My-Volume" (Some (csi.mkCapacityRange 1024 0))
              (Some [writer]) rcloneParams noSecrets)) emptyStore
    = (st1, sent, Ok (csi.mkCreateVolumeResponse (Some vol)))
    /\ st1 !! sanitizeVolumeID MemS3.imports "My-Volume" <> None
    /\ run (DeleteVolume MemS3.imports MemS3.server
              (csi.mkDeleteVolumeRequest (csi.VolumeId vol) noSecrets)) st1
       = (emptyStore,
          [s3.CallBucketExists (sanitizeVolumeID MemS3.imports "My-Volume");
           s3.CallGetFSMeta (sanitizeVolumeID MemS3.imports "My-Volume") "";
           s3.CallRemoveBucket (sanitizeVolumeID MemS3.imports "My-Volume")],
          Ok csi.mkDeleteVolumeResponse).
Proof.
  apply (create_then_delete "My-Volume" (Some (csi.mkCapacityRange 1024 0))
           [writer] rcloneParams noSecrets noSecrets emptyStore); evaluate.
Defined.

End Runs.
